(** * YTGraphX: the channel resolver, the video fetcher, the history
      synthesizer and the statistics aggregator of [youtube_api.py]

    The development embeds the methods of class [YouTubeAPI] as Rocq
    functions.  Python values that come back from the platform are kept as
    a small JSON universe, exceptions are an explicit result type, and the
    three effects of the module (calls to the platform, reads of the wall
    clock, draws of [random.random()]) are threaded through a state and
    error monad.  Python's [float] is IEEE 754 binary64: it is modelled by
    the Standard Library's [spec_float] with precision 53 and [emax] 1024,
    whose operations are the correctly rounded ones. *)

From Stdlib Require Import ZArith Lia Bool Ascii String.
From Stdlib Require Import Floats QArith Qround.
From stdpp Require Import base strings pretty gmap list.

#[local] Open Scope Z_scope.
#[local] Set Warnings "-register-all".

(** ** Python values *)

(** The body of a platform response after [json.loads]. *)
Inductive json :=
  | JNull
  | JBool (b : bool)
  | JInt (n : Z)
  | JStr (s : string)
  | JList (l : list json)
  | JDict (d : gmap string json).

(** Exceptions.  [HttpError] carries the status of [e.resp.status] and the
    text [str(e)] renders; every other exception carries the text of
    [str(e)].  The texts of interpreter-raised errors follow CPython 3.12;
    no statement below depends on them. *)
Inductive exn :=
  | HttpError (status : Z) (text : string)
  | KeyError (text : string)
  | IndexError (text : string)
  | TypeError (text : string)
  | AttributeError (text : string)
  | ValueError (text : string)
  | OverflowError (text : string).

Definition str_exn (e : exn) : string :=
  match e with
  | HttpError _ t | KeyError t | IndexError t | TypeError t
  | AttributeError t | ValueError t | OverflowError t => t
  end.

Inductive result (A : Type) :=
  | Ok (a : A)
  | Raise (e : exn).
Arguments Ok {A} a.
Arguments Raise {A} e.

#[global] Instance result_ret : MRet result := @Ok.
#[global] Instance result_bind : MBind result :=
  fun A B f r => match r with Ok a => f a | Raise e => Raise e end.

Definition is_ok {A} (r : result A) : bool :=
  match r with Ok _ => true | Raise _ => false end.

(** [repr] of a string, for the texts of [KeyError] and of [int()]'s
    [ValueError] (quotes inside the string are not escaped here). *)
Definition repr_str (s : string) : string := "'" +:+ s +:+ "'".

Definition type_name (v : json) : string :=
  match v with
  | JNull => "NoneType" | JBool _ => "bool" | JInt _ => "int"
  | JStr _ => "str" | JList _ => "list" | JDict _ => "dict"
  end.

(** [bool(v)], as used by [if v:] and [not v]. *)
Definition truthy (v : json) : bool :=
  match v with
  | JNull => false
  | JBool b => b
  | JInt n => negb (n =? 0)
  | JStr s => negb (String.eqb s "")
  | JList l => match l with [] => false | _ => true end
  | JDict d => negb (bool_decide (d = ∅))
  end.

(** [v[k]] for a string key [k]. *)
Definition getitem (v : json) (k : string) : result json :=
  match v with
  | JDict d =>
      match d !! k with
      | Some x => Ok x
      | None => Raise (KeyError (repr_str k))
      end
  | JList _ => Raise (TypeError "list indices must be integers or slices, not str")
  | JStr _ => Raise (TypeError "string indices must be integers, not 'str'")
  | _ => Raise (TypeError (repr_str (type_name v) +:+ " object is not subscriptable"))
  end.

(** [v[0]]. *)
Definition getitem0 (v : json) : result json :=
  match v with
  | JList (x :: _) => Ok x
  | JList [] => Raise (IndexError "list index out of range")
  | JStr (String c _) => Ok (JStr (String c ""))
  | JStr "" => Raise (IndexError "string index out of range")
  | JDict _ => Raise (KeyError "0")
  | _ => Raise (TypeError (repr_str (type_name v) +:+ " object is not subscriptable"))
  end.

(** [v.get(k, dflt)]: only a dict has the method. *)
Definition get (v : json) (k : string) (dflt : json) : result json :=
  match v with
  | JDict d => Ok (default dflt (d !! k))
  | _ => Raise (AttributeError
                  (repr_str (type_name v) +:+ " object has no attribute 'get'"))
  end.

(** ** [int()] on the values of a statistics object *)

(** Whitespace that [int()] skips around a literal: tab, line feed,
    vertical tab, form feed, carriage return and space. *)
Definition is_space (c : ascii) : bool :=
  let n := Z.of_nat (nat_of_ascii c) in
  ((9 <=? n) && (n <=? 13)) || (n =? 32).

Definition digit_of (c : ascii) : option Z :=
  let n := Z.of_nat (nat_of_ascii c) in
  if (48 <=? n) && (n <=? 57) then Some (n - 48) else None.

Fixpoint lstrip (s : string) : string :=
  match s with
  | String c s' => if is_space c then lstrip s' else s
  | EmptyString => EmptyString
  end.

Fixpoint rstrip (s : string) : string :=
  match s with
  | EmptyString => EmptyString
  | String c s' =>
      match rstrip s' with
      | EmptyString => if is_space c then EmptyString else String c EmptyString
      | t => String c t
      end
  end.

Definition strip (s : string) : string := rstrip (lstrip s).

(** Digits with single underscores between them; [seen] tells whether the
    previous character was a digit, [count] is the number of digits read. *)
Fixpoint digits_value (acc : Z) (count : nat) (seen : bool) (s : string)
  : option (Z * nat) :=
  match s with
  | EmptyString => if seen then Some (acc, count) else None
  | String c s' =>
      match digit_of c with
      | Some d => digits_value (10 * acc + d) (S count) true s'
      | None =>
          if Ascii.eqb c "_" && seen then digits_value acc count false s'
          else None
      end
  end.

(** CPython's limit on decimal string conversion
    ([sys.int_info.default_max_str_digits]). *)
Definition max_str_digits : nat := 4300.

Definition invalid_literal (s : string) : exn :=
  ValueError ("invalid literal for int() with base 10: " +:+ repr_str s).

(** An optional sign in front of the digits. *)
Definition split_sign (t : string) : bool * string :=
  match t with
  | String "-" r => (true, r)
  | String "+" r => (false, r)
  | _ => (false, t)
  end.

(** [int(s)] for a string [s], base 10. *)
Definition int_of_str (s : string) : result Z :=
  let '(neg, body) := split_sign (strip s) in
  match digits_value 0 0 false body with
  | Some (n, count) =>
      if (max_str_digits <? count)%nat
      then Raise (ValueError
             ("Exceeds the limit (4300 digits) for integer string conversion: value has "
              +:+ pretty count
              +:+ " digits; use sys.set_int_max_str_digits() to increase the limit"))
      else Ok (if neg then - n else n)
  | None => Raise (invalid_literal s)
  end.

(** [int(v)]. *)
Definition int (v : json) : result Z :=
  match v with
  | JInt n => Ok n
  | JBool b => Ok (if b then 1 else 0)
  | JStr s => int_of_str s
  | _ => Raise (TypeError
           ("int() argument must be a string, a bytes-like object or a real number, not "
            +:+ repr_str (type_name v)))
  end.

(** [for x in v]: the elements a comprehension visits. *)
Definition iterate (v : json) : result (list json) :=
  match v with
  | JList l => Ok l
  | JDict d => Ok (JStr <$> (map_to_list d).*1)
  | JStr s => Ok ((fun c => JStr (String c "")) <$> list_ascii_of_string s)
  | _ => Raise (TypeError (repr_str (type_name v) +:+ " object is not iterable"))
  end.

(** [','.join(l)]: every item has to be a string. *)
Fixpoint join_from (i : nat) (l : list json) : result string :=
  match l with
  | [] => Ok ""
  | JStr s :: l' =>
      match l' with
      | [] => Ok s
      | _ => rest ← join_from (S i) l'; Ok (s +:+ "," +:+ rest)
      end
  | v :: _ =>
      Raise (TypeError ("sequence item " +:+ pretty i
                        +:+ ": expected str instance, " +:+ type_name v +:+ " found"))
  end.

Definition join (l : list json) : result string := join_from 0 l.

(** [[f(x) for x in l]]: the first exception ends the comprehension. *)
Fixpoint list_comprehension {A B} (f : A → result B) (l : list A) : result (list B) :=
  match l with
  | [] => Ok []
  | x :: l' => y ← f x; ys ← list_comprehension f l'; Ok (y :: ys)
  end.

(** ** Formatted records *)

Module Channel.
Record t := {
  id : json;
  title : json;
  description : json;
  custom_url : json;
  published_at : json;
  thumbnails : json;
  statistics : json;
  branding_settings : json;
  subscriber_count : Z;
  view_count : Z;
  video_count : Z
}.
End Channel.

Module Video.
Record t := {
  id : json;
  title : json;
  description : json;
  published_at : json;
  thumbnails : json;
  statistics : json;
  duration : json;
  view_count : Z;
  like_count : Z;
  comment_count : Z
}.
End Video.

(** [YouTubeAPI._format_channel_data].  The entries of the dict display are
    evaluated in the order they are written. *)
Definition _format_channel_data (channel_data : json) : result Channel.t :=
  id ← getitem channel_data "id";
  snippet ← getitem channel_data "snippet";
  title ← getitem snippet "title";
  snippet ← getitem channel_data "snippet";
  description ← getitem snippet "description";
  snippet ← getitem channel_data "snippet";
  custom_url ← get snippet "customUrl" (JStr "");
  snippet ← getitem channel_data "snippet";
  published_at ← getitem snippet "publishedAt";
  snippet ← getitem channel_data "snippet";
  thumbnails ← getitem snippet "thumbnails";
  statistics ← getitem channel_data "statistics";
  branding_settings ← get channel_data "brandingSettings" (JDict ∅);
  stats ← getitem channel_data "statistics";
  subscriber_count ← get stats "subscriberCount" (JInt 0) ≫= int;
  stats ← getitem channel_data "statistics";
  view_count ← get stats "viewCount" (JInt 0) ≫= int;
  stats ← getitem channel_data "statistics";
  video_count ← get stats "videoCount" (JInt 0) ≫= int;
  Ok {| Channel.id := id; Channel.title := title;
        Channel.description := description; Channel.custom_url := custom_url;
        Channel.published_at := published_at; Channel.thumbnails := thumbnails;
        Channel.statistics := statistics;
        Channel.branding_settings := branding_settings;
        Channel.subscriber_count := subscriber_count;
        Channel.view_count := view_count;
        Channel.video_count := video_count |}.

(** [YouTubeAPI._format_video_data]. *)
Definition _format_video_data (video_data : json) : result Video.t :=
  id ← getitem video_data "id";
  snippet ← getitem video_data "snippet";
  title ← getitem snippet "title";
  snippet ← getitem video_data "snippet";
  description ← getitem snippet "description";
  snippet ← getitem video_data "snippet";
  published_at ← getitem snippet "publishedAt";
  snippet ← getitem video_data "snippet";
  thumbnails ← getitem snippet "thumbnails";
  statistics ← getitem video_data "statistics";
  details ← getitem video_data "contentDetails";
  duration ← getitem details "duration";
  stats ← getitem video_data "statistics";
  view_count ← get stats "viewCount" (JInt 0) ≫= int;
  stats ← getitem video_data "statistics";
  like_count ← get stats "likeCount" (JInt 0) ≫= int;
  stats ← getitem video_data "statistics";
  comment_count ← get stats "commentCount" (JInt 0) ≫= int;
  Ok {| Video.id := id; Video.title := title; Video.description := description;
        Video.published_at := published_at; Video.thumbnails := thumbnails;
        Video.statistics := statistics; Video.duration := duration;
        Video.view_count := view_count; Video.like_count := like_count;
        Video.comment_count := comment_count |}.

(** ** Python floats: IEEE 754 binary64 *)

Definition float := spec_float.

Definition fmul : float → float → float := SFmul 53 1024.
Definition fadd : float → float → float := SFadd 53 1024.
Definition fsub : float → float → float := SFsub 53 1024.

(** The representation invariant of a double: a finite value has its
    canonical mantissa and exponent. *)
Definition valid (x : float) : bool := SpecFloat.valid_binary 53 1024 x.

(** The literals of [generate_historical_data], each the double nearest to
    the decimal that is written. *)
Definition lit_0_05 : float := S754_finite false 7205759403792794 (-57).
Definition lit_0_8 : float := S754_finite false 7205759403792794 (-53).
Definition lit_0_4 : float := S754_finite false 7205759403792794 (-54).
Definition lit_1_0 : float := S754_finite false 4503599627370496 (-52).
Definition lit_0_5 : float := S754_finite false 4503599627370496 (-53).

(** [float(n)] for an int [n], as the mixed operators apply it: rounded to
    nearest even, [OverflowError] beyond the largest double. *)
Definition float_of_int (n : Z) : result float :=
  match binary_normalize 53 1024 n 0 false with
  | S754_infinity _ => Raise (OverflowError "int too large to convert to float")
  | f => Ok f
  end.

(** [int(x)] for a float [x]: truncation toward zero. *)
Definition int_of_float (x : float) : result Z :=
  match x with
  | S754_zero _ => Ok 0
  | S754_finite s m e =>
      let magnitude := Z.shiftl (Z.pos m) e in
      Ok (if s then - magnitude else magnitude)
  | S754_infinity _ => Raise (OverflowError "cannot convert float infinity to integer")
  | S754_nan => Raise (ValueError "cannot convert float NaN to integer")
  end.

(** [n * x] and [n - x] for an int [n] and a float [x]. *)
Definition int_mul_float (n : Z) (x : float) : result float :=
  f ← float_of_int n; Ok (fmul f x).

Definition int_sub_float (n : Z) (x : float) : result float :=
  f ← float_of_int n; Ok (fsub f x).

(** ** [datetime] *)

(** A naive [datetime]: the day as its proleptic Gregorian ordinal
    ([1] is 0001-01-01, as [date.toordinal()] counts) and the time of day
    in microseconds. *)
Record datetime := {
  ordinal : Z;
  microsecond_of_day : Z
}.

Definition max_ordinal : Z := 3652059.

(** [timedelta(days=n)]. *)
Definition timedelta_days (n : Z) : result Z :=
  if Z.abs n <=? 999999999 then Ok n
  else Raise (OverflowError "days; must have magnitude <= 999999999").

(** [t - timedelta(days=n)]: the day moves, the time of day stays. *)
Definition datetime_sub (t : datetime) (days : Z) : result datetime :=
  let o := ordinal t - days in
  if (1 <=? o) && (o <=? max_ordinal)
  then Ok {| ordinal := o; microsecond_of_day := microsecond_of_day t |}
  else Raise (OverflowError "date value out of range").

(** [t.strftime('%Y-%m-%d')] names the calendar day of [t]; the model keeps
    that day as its ordinal instead of its text. *)
Definition strftime_Ymd (t : datetime) : Z := ordinal t.

(** [t1 < t2] on datetimes. *)
Definition datetime_ltb (t1 t2 : datetime) : bool :=
  (ordinal t1 <? ordinal t2)
  || ((ordinal t1 =? ordinal t2) && (microsecond_of_day t1 <? microsecond_of_day t2)).

Definition datetime_leb (t1 t2 : datetime) : bool :=
  datetime_ltb t1 t2
  || ((ordinal t1 =? ordinal t2) && (microsecond_of_day t1 =? microsecond_of_day t2)).

(** [t - timedelta(days=n)] as the loop writes it. *)
Definition days_before (t : datetime) (n : Z) : result datetime :=
  delta ← timedelta_days n; datetime_sub t delta.

(** ** The expressions of the loop of [generate_historical_data] *)

(** [1 - (i * 0.05)]. *)
Definition growth_factor_at (i : Z) : result float :=
  x ← int_mul_float i lit_0_05; int_sub_float 1 x.

(** [0.8 + r * 0.4] for the draw [r] of [random.random()]. *)
Definition random_variation_of (r : float) : float :=
  fadd lit_0_8 (fmul r lit_0_4).

(** [int(current * growth_factor * random_variation)]. *)
Definition scaled (current : Z) (growth_factor random_variation : float) : result Z :=
  x ← int_mul_float current growth_factor;
  int_of_float (fmul x random_variation).

(** ** Requests to the platform *)

Inductive request :=
  | ChannelsList_id (part : string) (id : json)
  | ChannelsList_forUsername (part : string) (forUsername : string)
  | SearchList (part q type_ : string) (maxResults : Z)
  | PlaylistItemsList (part : string) (playlistId : json) (maxResults : Z)
  | VideosList (part : string) (id : string).

(** ** Output records *)

(** One entry of a history list: [{'date': date_str, <metric>: value}]. *)
Record HistoryPoint := {
  date : Z;
  value : Z
}.

Record History := {
  subscriber_history : list HistoryPoint;
  view_history : list HistoryPoint;
  video_history : list HistoryPoint
}.

Module Stats.
Record t := {
  channel : Channel.t;
  videos : list Video.t;
  subscriber_history : list HistoryPoint;
  view_history : list HistoryPoint;
  video_history : list HistoryPoint
}.
End Stats.

Module config.
Definition HISTORICAL_MONTHS : Z := 12.
End config.

(** [range(n, 0, -1)]: [n, n-1, ..., 1]. *)
Definition range_down (n : Z) : list Z :=
  (fun k => n - Z.of_nat k) <$> seq 0 (Z.to_nat n).

(** [s] without one leading ['@']. *)
Definition strip_at (s : string) : string :=
  match s with
  | String "@" r => r
  | _ => s
  end.

(** ** The methods of [YouTubeAPI] *)

(** What a run has done so far: the state of the platform behind
    [self.youtube], the requests executed (oldest first), and how many
    times the clock and the random source were read. *)
Record World (S : Type) := {
  transport : S;
  calls : list request;
  clock_reads : nat;
  random_draws : nat
}.
Arguments transport {S} _.
Arguments calls {S} _.
Arguments clock_reads {S} _.
Arguments random_draws {S} _.

(** A computation that may raise and that acts on the world. *)
Definition Py (S A : Type) : Type := World S → result A * World S.

#[global] Instance Py_ret {S} : MRet (Py S) := fun A a w => (Ok a, w).
#[global] Instance Py_bind {S} : MBind (Py S) :=
  fun A B f m w =>
    match m w with
    | (Ok a, w') => f a w'
    | (Raise e, w') => (Raise e, w')
    end.

Definition raise {S A} (e : exn) : Py S A := fun w => (Raise e, w).

(** A pure step that may raise. *)
Definition lift {S A} (r : result A) : Py S A := fun w => (r, w).

(** [try: body  except Exception as e: handler e]. *)
Definition try_except {S A} (body : Py S A) (handler : exn → Py S A) : Py S A :=
  fun w =>
    match body w with
    | (Ok a, w') => (Ok a, w')
    | (Raise e, w') => handler e w'
    end.

(** ['items' in response and response['items']]. *)
Definition has_items (response : gmap string json) : bool :=
  match response !! "items" with
  | Some items => truthy items
  | None => false
  end.

(** [response['items'][0]]. *)
Definition first_item (response : gmap string json) : result json :=
  getitem (JDict response) "items" ≫= getitem0.

(** [item['contentDetails']['relatedPlaylists']['uploads']]. *)
Definition uploads_of (item : json) : result json :=
  details ← getitem item "contentDetails";
  related ← getitem details "relatedPlaylists";
  getitem related "uploads".

(** [item['contentDetails']['videoId']]. *)
Definition video_id_of (item : json) : result json :=
  details ← getitem item "contentDetails";
  getitem details "videoId".

Definition channel_part : string := "snippet,statistics,brandingSettings".

Section YouTubeAPI.
Context {S : Type}.

(** [request.execute()]: the platform answers with a JSON object or
    raises, and moves to its next state. *)
Variable execute : request → S → result (gmap string json) * S.

(** The k-th value [datetime.now()] returns, and the k-th value
    [random.random()] returns. *)
Variable clock : nat → datetime.
Variable random : nat → float.

#[local] Abbreviation Py := (Py S).

Definition execute_request (r : request) : Py (gmap string json) :=
  fun w =>
    let '(answer, s') := execute r (transport w) in
    (answer, {| transport := s'; calls := calls w ++ [r];
                clock_reads := clock_reads w; random_draws := random_draws w |}).

Definition datetime_now : Py datetime :=
  fun w =>
    (Ok (clock (clock_reads w)),
     {| transport := transport w; calls := calls w;
        clock_reads := Datatypes.S (clock_reads w); random_draws := random_draws w |}).

Definition random_random : Py float :=
  fun w =>
    (Ok (random (random_draws w)),
     {| transport := transport w; calls := calls w;
        clock_reads := clock_reads w; random_draws := Datatypes.S (random_draws w) |}).

(** The three [try] blocks of [get_channel_info].  Each yields
    [Some record] when it executes [return], and [None] when control
    falls through to the statement after it; [except Exception: pass]
    turns every exception of the block into falling through. *)
Definition lookup_by_id (channel_identifier : string) : Py (option Channel.t) :=
  try_except
    (response ← execute_request (ChannelsList_id channel_part (JStr channel_identifier));
     if has_items response
     then item ← lift (first_item response);
          formatted ← lift (_format_channel_data item);
          mret (Some formatted)
     else mret None)
    (fun e => mret None).

Definition lookup_by_username (channel_identifier : string) : Py (option Channel.t) :=
  try_except
    (response ← execute_request (ChannelsList_forUsername channel_part channel_identifier);
     if has_items response
     then item ← lift (first_item response);
          formatted ← lift (_format_channel_data item);
          mret (Some formatted)
     else mret None)
    (fun e => mret None).

Definition lookup_by_search (channel_identifier : string) : Py (option Channel.t) :=
  try_except
    (search_response ← execute_request (SearchList "snippet" channel_identifier "channel" 1);
     if has_items search_response
     then
       channel_id ← lift (item ← first_item search_response;
                          ids ← getitem item "id";
                          getitem ids "channelId");
       channel_response ← execute_request (ChannelsList_id channel_part channel_id);
       if has_items channel_response
       then item ← lift (first_item channel_response);
            formatted ← lift (_format_channel_data item);
            mret (Some formatted)
       else mret None
     else mret None)
    (fun e => mret None).

Definition not_found_text (channel_identifier : string) : string :=
  "Channel '" +:+ channel_identifier
    +:+ "' not found. Please check the channel ID or username.".

(** [YouTubeAPI.get_channel_info]. *)
Definition get_channel_info (channel_identifier : string) : Py Channel.t :=
  let channel_identifier := strip_at channel_identifier in
  try_except
    (by_id ← lookup_by_id channel_identifier;
     match by_id with
     | Some formatted => mret formatted
     | None =>
         by_username ← lookup_by_username channel_identifier;
         match by_username with
         | Some formatted => mret formatted
         | None =>
             by_search ← lookup_by_search channel_identifier;
             match by_search with
             | Some formatted => mret formatted
             | None => raise (ValueError (not_found_text channel_identifier))
             end
         end
     end)
    (fun e =>
       match e with
       | HttpError status _ =>
           if status =? 403 then
             raise (ValueError
               "API quota exceeded or invalid API key. Please check your API key and quota.")
           else if status =? 404 then
             raise (ValueError ("Channel '" +:+ channel_identifier +:+ "' not found"))
           else raise (ValueError ("API Error: " +:+ str_exn e))
       | _ => raise (ValueError ("Error fetching channel info: " +:+ str_exn e))
       end).

(** [YouTubeAPI.get_channel_videos]. *)
Definition get_channel_videos (channel_id : json) (max_results : Z) : Py (list Video.t) :=
  try_except
    (channel_response ← execute_request (ChannelsList_id "contentDetails" channel_id);
     items ← lift (getitem (JDict channel_response) "items");
     if negb (truthy items) then raise (ValueError "Channel not found")
     else
       uploads_playlist_id ← lift (first_item channel_response ≫= uploads_of);
       videos_response ←
         execute_request
           (PlaylistItemsList "snippet,contentDetails" uploads_playlist_id max_results);
       video_ids ←
         lift (items ← getitem (JDict videos_response) "items";
               entries ← iterate items;
               list_comprehension video_id_of entries);
       match video_ids with
       | [] => mret []
       | _ =>
           id ← lift (join video_ids);
           video_details_response ←
             execute_request (VideosList "snippet,statistics,contentDetails" id);
           lift (items ← getitem (JDict video_details_response) "items";
                 entries ← iterate items;
                 list_comprehension _format_video_data entries)
       end)
    (fun e => raise (ValueError ("Error fetching videos: " +:+ str_exn e))).

(** The body of the loop of [generate_historical_data] for one [i]: one
    read of the clock, one draw, one point appended to each list. *)
Definition history_step (current_subscribers current_views current_videos : Z)
    (h : History) (i : Z) : Py History :=
  now ← datetime_now;
  date ← lift (days_before now (30 * i));
  let date_str := strftime_Ymd date in
  growth_factor ← lift (growth_factor_at i);
  r ← random_random;
  let random_variation := random_variation_of r in
  subscribers ← lift (scaled current_subscribers growth_factor random_variation);
  views ← lift (scaled current_views growth_factor random_variation);
  videos ← lift (scaled current_videos growth_factor random_variation);
  mret {| subscriber_history :=
            subscriber_history h ++ [{| date := date_str; value := subscribers |}];
          view_history :=
            view_history h ++ [{| date := date_str; value := views |}];
          video_history :=
            video_history h ++ [{| date := date_str; value := videos |}] |}.

(** [for i in l: h = body h i]. *)
Fixpoint for_each {A B} (body : B → A → Py B) (l : list A) (h : B) : Py B :=
  match l with
  | [] => mret h
  | i :: l' => h' ← body h i; for_each body l' h'
  end.

(** [YouTubeAPI.generate_historical_data], with the configured
    [HISTORICAL_MONTHS] as an argument. *)
Definition generate_historical_data (HISTORICAL_MONTHS : Z)
    (channel_data : Channel.t) : Py History :=
  let current_subscribers := Channel.subscriber_count channel_data in
  let current_views := Channel.view_count channel_data in
  let current_videos := Channel.video_count channel_data in
  for_each (history_step current_subscribers current_views current_videos)
           (range_down HISTORICAL_MONTHS)
           {| subscriber_history := []; view_history := []; video_history := [] |}.

(** [YouTubeAPI.get_comprehensive_stats]; [max_results] of
    [get_channel_videos] is left at its default 50. *)
Definition get_comprehensive_stats (HISTORICAL_MONTHS : Z)
    (channel_identifier : string) : Py Stats.t :=
  try_except
    (channel_data ← get_channel_info channel_identifier;
     videos ← get_channel_videos (Channel.id channel_data) 50;
     historical_data ← generate_historical_data HISTORICAL_MONTHS channel_data;
     mret {| Stats.channel := channel_data;
             Stats.videos := videos;
             Stats.subscriber_history := subscriber_history historical_data;
             Stats.view_history := view_history historical_data;
             Stats.video_history := video_history historical_data |})
    (fun e => raise (ValueError ("Error getting comprehensive stats: " +:+ str_exn e))).

End YouTubeAPI.

(** ** The spec's wording, for comparison with the code *)

(** The synthesizer step as the specification words it: the variation
    factor is drawn anew for each metric of a point, in the order
    subscribers, views, videos. *)
Definition history_step_independent {S} (clock : nat → datetime) (random : nat → float)
    (current_subscribers current_views current_videos : Z)
    (h : History) (i : Z) : Py S History :=
  now ← datetime_now clock;
  date ← lift (days_before now (30 * i));
  let date_str := strftime_Ymd date in
  growth_factor ← lift (growth_factor_at i);
  r1 ← random_random random;
  subscribers ← lift (scaled current_subscribers growth_factor (random_variation_of r1));
  r2 ← random_random random;
  views ← lift (scaled current_views growth_factor (random_variation_of r2));
  r3 ← random_random random;
  videos ← lift (scaled current_videos growth_factor (random_variation_of r3));
  mret {| subscriber_history :=
            subscriber_history h ++ [{| date := date_str; value := subscribers |}];
          view_history :=
            view_history h ++ [{| date := date_str; value := views |}];
          video_history :=
            video_history h ++ [{| date := date_str; value := videos |}] |}.

Definition synthesize_independent {S} (clock : nat → datetime) (random : nat → float)
    (months : Z) (channel_data : Channel.t) : Py S History :=
  for_each (history_step_independent clock random
              (Channel.subscriber_count channel_data)
              (Channel.view_count channel_data)
              (Channel.video_count channel_data))
           (range_down months)
           {| subscriber_history := []; view_history := []; video_history := [] |}.

(** [floor(current × (1 − 0.05×i))] over the rationals, as the
    specification writes the pinned value. *)
Definition floor_formula (current i : Z) : Z :=
  Qfloor (inject_Z current * (1 - (5 # 100) * inject_Z i))%Q.

(** ** One point of a history *)

(** The point an iteration of the loop appends for the total [current]:
    [now] is what the clock read in this iteration and [r] what was drawn
    in it. *)
Definition point (current i : Z) (now : datetime) (r : float) : result HistoryPoint :=
  date ← days_before now (30 * i);
  growth_factor ← growth_factor_at i;
  v ← scaled current growth_factor (random_variation_of r);
  Ok {| date := strftime_Ymd date; value := v |}.

(** The world after [n] iterations of the loop. *)
Definition advance_by {S} (n : nat) (w : World S) : World S :=
  {| transport := transport w; calls := calls w;
     clock_reads := clock_reads w + n; random_draws := random_draws w + n |}.

Definition append_points (h : History) (a b c : HistoryPoint) : History :=
  {| subscriber_history := subscriber_history h ++ [a];
     view_history := view_history h ++ [b];
     video_history := video_history h ++ [c] |}.

Definition no_history : History :=
  {| subscriber_history := []; view_history := []; video_history := [] |}.

(** A double that is not negative: a zero, a positive value, or NaN. *)
Definition not_negative (x : float) : Prop :=
  match x with
  | S754_zero _ => True
  | S754_infinity s | S754_finite s _ _ => s = false
  | S754_nan => True
  end.

(** ** Conditions on inputs *)

(** A double of sign [s] and of magnitude at most [2^k]: a zero, or a
    finite value in canonical form whose mantissa, read with its exponent,
    has at most [k] binary digits. *)
Definition below (s : bool) (k : Z) (x : float) : Prop :=
  match x with
  | S754_zero s' => s' = s
  | S754_finite s' m e =>
      s' = s ∧ bounded 53 1024 m e = true ∧ Z.pos (digits2_pos m) + e ≤ k
  | _ => False
  end.

(** A value [random.random()] can return: a double in [[0.0, 1.0)]. *)
Definition unit_draw (r : float) : bool :=
  valid r
  && match r with
     | S754_zero false => true
     | S754_finite false _ _ => SFltb r lit_1_0
     | _ => false
     end.

(** A statistics count as the platform sends it: a non-empty string of
    decimal digits (within the interpreter's conversion limit). *)
Definition all_digits (s : string) : bool :=
  forallb (fun c => bool_decide (is_Some (digit_of c))) (list_ascii_of_string s).

Definition wire_count (s : string) : bool :=
  negb (String.eqb s "") && all_digits s && (String.length s <=? max_str_digits)%nat.

(** The number a string of decimal digits denotes. *)
Definition decimal_value (s : string) : Z :=
  foldl (fun acc c => 10 * acc + default 0 (digit_of c)) 0 (list_ascii_of_string s).

Definition count_or_absent (stats : gmap string json) (k : string) : bool :=
  match stats !! k with
  | None => true
  | Some (JStr s) => wire_count s
  | Some _ => false
  end.

(** What such a field denotes: [0] when it is absent. *)
Definition count_value (stats : gmap string json) (k : string) : Z :=
  match stats !! k with
  | Some (JStr s) => decimal_value s
  | _ => 0
  end.

(** A channel resource as [channels.list] returns it for the parts
    [snippet,statistics,brandingSettings]; the counts of the statistics
    object may be absent. *)
Definition channel_resource (item : json) : bool :=
  match item with
  | JDict d =>
      bool_decide (is_Some (d !! "id"))
      && match d !! "snippet" with
         | Some (JDict snippet) =>
             bool_decide (is_Some (snippet !! "title"))
             && bool_decide (is_Some (snippet !! "description"))
             && bool_decide (is_Some (snippet !! "publishedAt"))
             && bool_decide (is_Some (snippet !! "thumbnails"))
         | _ => false
         end
      && match d !! "statistics" with
         | Some (JDict stats) =>
             count_or_absent stats "subscriberCount"
             && count_or_absent stats "viewCount"
             && count_or_absent stats "videoCount"
         | _ => false
         end
  | _ => false
  end.

Definition statistics_of (item : json) : gmap string json :=
  match item with
  | JDict d => match d !! "statistics" with Some (JDict stats) => stats | _ => ∅ end
  | _ => ∅
  end.

(** ** Sample inputs *)

Definition new_world {S} (s : S) : World S :=
  {| transport := s; calls := []; clock_reads := 0; random_draws := 0 |}.

Definition sample_snippet : json :=
  JDict {[ "title" := JStr "Example";
           "description" := JStr "An example channel";
           "publishedAt" := JStr "2010-01-01T00:00:00Z";
           "thumbnails" := JDict ∅ ]}.

(** A channel whose subscriber count is hidden. *)
Definition sample_channel : json :=
  JDict {[ "id" := JStr "UC123";
           "snippet" := sample_snippet;
           "statistics" := JDict {[ "viewCount" := JStr "10000";
                                    "videoCount" := JStr "10" ]} ]}.

Definition items_of (l : list json) : gmap string json := {[ "items" := JList l ]}.

(** A platform that knows no channel at all. *)
Definition empty_platform (r : request) (s : unit) : result (gmap string json) * unit :=
  (Ok (items_of []), s).

(** A platform that answers the lookup by id with [sample_channel]. *)
Definition id_platform (r : request) (s : unit) : result (gmap string json) * unit :=
  match r with
  | ChannelsList_id _ _ => (Ok (items_of [sample_channel]), s)
  | _ => (Ok (items_of []), s)
  end.

(** A platform whose lookup by id is refused with status 403, while the
    lookup by username would find the channel. *)
Definition quota_platform (r : request) (s : unit) : result (gmap string json) * unit :=
  match r with
  | ChannelsList_id _ _ => (Raise (HttpError 403 "quotaExceeded"), s)
  | ChannelsList_forUsername _ _ => (Ok (items_of [sample_channel]), s)
  | _ => (Ok (items_of []), s)
  end.

(** A platform that refuses every request with status 403. *)
Definition refusing_platform (r : request) (s : unit) : result (gmap string json) * unit :=
  (Raise (HttpError 403 "quotaExceeded"), s).

(** A platform on which the channel exists and has no uploads. *)
Definition no_uploads_platform (r : request) (s : unit) : result (gmap string json) * unit :=
  match r with
  | ChannelsList_id "contentDetails" _ =>
      (Ok (items_of [JDict {[ "contentDetails" :=
             JDict {[ "relatedPlaylists" := JDict {[ "uploads" := JStr "UU123" ]} ]} ]}]), s)
  | ChannelsList_id _ _ => (Ok (items_of [sample_channel]), s)
  | _ => (Ok (items_of []), s)
  end.

(** Noon of 2025-01-01, and a clock that stands still there. *)
Definition noon : datetime := {| ordinal := 739252; microsecond_of_day := 43200000000 |}.
Definition still_clock (k : nat) : datetime := noon.

(** A clock that passes midnight between its first and its second read. *)
Definition midnight_clock (k : nat) : datetime :=
  match k with
  | O => {| ordinal := 739252; microsecond_of_day := 86399999999 |}
  | _ => {| ordinal := 739253; microsecond_of_day := 1 |}
  end.

(** A random source pinned to [0.5], which pins the variation to [1.0]. *)
Definition pinned_random (k : nat) : float := lit_0_5.

(** A random source whose draws are [0.0], [0.5], [0.0], [0.5], ... *)
Definition alternating_random (k : nat) : float :=
  if Nat.even k then S754_zero false else lit_0_5.

Definition totals (subscribers views videos : Z) : Channel.t :=
  {| Channel.id := JStr "UC123"; Channel.title := JStr "Example";
     Channel.description := JStr ""; Channel.custom_url := JStr "";
     Channel.published_at := JStr "2010-01-01T00:00:00Z";
     Channel.thumbnails := JDict ∅; Channel.statistics := JDict ∅;
     Channel.branding_settings := JDict ∅;
     Channel.subscriber_count := subscribers;
     Channel.view_count := views;
     Channel.video_count := videos |}.

(** The world after the request [r] was executed and left the platform in
    state [s']. *)
Definition record_call {S} (w : World S) (r : request) (s' : S) : World S :=
  {| transport := s'; calls := calls w ++ [r];
     clock_reads := clock_reads w; random_draws := random_draws w |}.

(** The requests of the three tiers for an identifier already stripped. *)
Definition by_id_request (channel_identifier : string) : request :=
  ChannelsList_id channel_part (JStr channel_identifier).

Definition by_username_request (channel_identifier : string) : request :=
  ChannelsList_forUsername channel_part channel_identifier.

Definition search_request (channel_identifier : string) : request :=
  SearchList "snippet" channel_identifier "channel" 1.

(** [ident in text]. *)
Definition carries (text ident : string) : bool :=
  bool_decide (is_Some (String.index 0 ident text)).

Definition stats_error_prefix : string := "Error getting comprehensive stats: ".

Definition pt (d v : Z) : HistoryPoint := {| date := d; value := v |}.

(** What the synthesizer returns for totals of 1000 each and two months,
    at noon of 2025-01-01, when the draws are [0.0] and [0.5]. *)
Definition alternating_history : History :=
  {| subscriber_history := [pt 739192 720; pt 739222 950];
     view_history := [pt 739192 720; pt 739222 950];
     video_history := [pt 739192 720; pt 739222 950] |}.

(** The exception [get_comprehensive_stats] raises in place of [e]. *)
Definition wrapped (e : exn) : exn := ValueError (stats_error_prefix +:+ str_exn e).

(** The dict [get_comprehensive_stats] returns. *)
Definition bundle (ch : Channel.t) (vs : list Video.t) (h : History) : Stats.t :=
  {| Stats.channel := ch; Stats.videos := vs;
     Stats.subscriber_history := subscriber_history h;
     Stats.view_history := view_history h;
     Stats.video_history := video_history h |}.

(** ** Video resources *)

(** A video resource as [videos.list] returns it for the parts
    [snippet,statistics,contentDetails]; the counts of the statistics
    object may be absent (likes hidden, comments disabled). *)
Definition video_resource (item : json) : bool :=
  match item with
  | JDict d =>
      bool_decide (is_Some (d !! "id"))
      && match d !! "snippet" with
         | Some snippet =>
             is_ok (getitem snippet "title")
             && is_ok (getitem snippet "description")
             && is_ok (getitem snippet "publishedAt")
             && is_ok (getitem snippet "thumbnails")
         | None => false
         end
      && match d !! "contentDetails" with
         | Some details => is_ok (getitem details "duration")
         | None => false
         end
      && match d !! "statistics" with
         | Some (JDict stats) =>
             count_or_absent stats "viewCount"
             && count_or_absent stats "likeCount"
             && count_or_absent stats "commentCount"
         | _ => false
         end
  | _ => false
  end.



(** ** Expressions of [main.py] *)

(** [a // b] on ints: [None] stands for [ZeroDivisionError]. *)
Definition floordiv (a b : Z) : option Z :=
  if b =? 0 then None else Some (a / b).

(** [channel_data['view_count'] // max(channel_data['video_count'], 1)] of
    [print_channel_info]. *)
Definition avg_views (channel_data : Channel.t) : option Z :=
  floordiv (Channel.view_count channel_data)
           (Z.max (Channel.video_count channel_data) 1).

(** [s.replace(old, new)] for one-character [old] and [new]. *)
Fixpoint replace_char (old new : ascii) (s : string) : string :=
  match s with
  | EmptyString => EmptyString
  | String c s' =>
      String (if Ascii.eqb c old then new else c) (replace_char old new s')
  end.

(** [channel_data['title'].replace(' ', '_').replace('/', '_')] of
    [save_charts]. *)
Definition channel_name (title : string) : string :=
  replace_char "/" "_" (replace_char " " "_" title).


(** [l[:stop]]: a negative [stop] counts from the end. *)
Definition slice_to {A} (stop : Z) (l : list A) : list A :=
  if 0 <=? stop then take (Z.to_nat stop) l
  else take (Z.to_nat (Z.of_nat (length l) + stop)) l.

(** [min(limit, len(videos))], the number that the heading of
    [print_recent_videos] announces. *)
Definition announced {A} (limit : Z) (videos : list A) : Z :=
  Z.min limit (Z.of_nat (length videos)).

(** [videos[:limit]], the videos that [print_recent_videos] lists. *)
Definition listed {A} (limit : Z) (videos : list A) : list A :=
  slice_to limit videos.

(** A platform for the third tier: the direct lookups find nothing, the
    search names channel [UC123], whose record the lookup by id returns. *)
Definition search_platform (r : request) (s : unit) : result (gmap string json) * unit :=
  match r with
  | SearchList _ _ _ _ =>
      (Ok (items_of [JDict {[ "id" := JDict {[ "channelId" := JStr "UC123" ]} ]}]), s)
  | ChannelsList_id _ (JStr "UC123") => (Ok (items_of [sample_channel]), s)
  | _ => (Ok (items_of []), s)
  end.

(** A video whose likes are hidden. *)
Definition sample_video : json :=
  JDict {[ "id" := JStr "v1";
           "snippet" := sample_snippet;
           "contentDetails" := JDict {[ "duration" := JStr "PT4M13S" ]};
           "statistics" := JDict {[ "viewCount" := JStr "123" ]} ]}.


(** * Properties of [int()] and of the formatting step *)

Lemma digit_not_space c : is_Some (digit_of c) → is_space c = false.
Proof.
  unfold digit_of, is_space. intros [d Hd].
  destruct (_ && _) eqn:E in Hd; [|discriminate]. lia.
Qed.

Lemma digit_of_range c d : digit_of c = Some d → 0 ≤ d ≤ 9.
Proof.
  unfold digit_of. destruct (_ && _) eqn:E; [|discriminate].
  intros [= <-]. lia.
Qed.

Lemma all_digits_cons c s :
  all_digits (String c s) = bool_decide (is_Some (digit_of c)) && all_digits s.
Proof. reflexivity. Qed.

Lemma lstrip_digits s : all_digits s = true → lstrip s = s.
Proof.
  destruct s as [|c s]; [reflexivity|].
  rewrite all_digits_cons. intros [Hc _]%andb_prop.
  apply bool_decide_eq_true in Hc. simpl. by rewrite digit_not_space.
Qed.

Lemma rstrip_digits s : all_digits s = true → rstrip s = s.
Proof.
  induction s as [|c s IH]; [reflexivity|].
  rewrite all_digits_cons. intros [Hc Hs]%andb_prop.
  apply bool_decide_eq_true in Hc. simpl. rewrite (IH Hs).
  destruct s; [by rewrite digit_not_space | reflexivity].
Qed.

Lemma digits_value_digits s acc count seen :
  all_digits s = true → (s ≠ "" ∨ seen = true) →
  digits_value acc count seen s
  = Some (foldl (fun a c => 10 * a + default 0 (digit_of c)) acc (list_ascii_of_string s),
          (count + String.length s)%nat).
Proof.
  revert acc count seen. induction s as [|c s IH]; intros acc count seen Hd Hne.
  - destruct Hne as [?| ->]; [done|]. simpl. by rewrite Nat.add_0_r.
  - rewrite all_digits_cons in Hd. apply andb_prop in Hd as [Hc Hs].
    apply bool_decide_eq_true in Hc. destruct Hc as [d Hc].
    simpl. rewrite Hc. simpl. rewrite IH by auto.
    by rewrite Nat.add_succ_r.
Qed.

Lemma decimal_value_nonneg_from s acc :
  0 ≤ acc →
  0 ≤ foldl (fun a c => 10 * a + default 0 (digit_of c)) acc (list_ascii_of_string s).
Proof.
  revert acc. induction s as [|c s IH]; intros acc Hacc; simpl; [done|].
  apply IH. destruct (digit_of c) as [d|] eqn:E; simpl; [|lia].
  apply digit_of_range in E. lia.
Qed.

Lemma decimal_value_nonneg s : 0 ≤ decimal_value s.
Proof. by apply decimal_value_nonneg_from. Qed.

(** A first digit is neither sign. *)
Lemma split_sign_digit c s :
  is_Some (digit_of c) → split_sign (String c s) = (false, String c s).
Proof.
  intros [n Hn]. destruct c as [[] [] [] [] [] [] [] []]; try reflexivity;
    vm_compute in Hn; discriminate.
Qed.

(** [int()] reads a count off the wire as the number it denotes. *)
Lemma int_of_str_wire_count s :
  wire_count s = true → int_of_str s = Ok (decimal_value s).
Proof.
  unfold wire_count. intros [[Hne Hd]%andb_prop Hlen]%andb_prop.
  unfold int_of_str, strip. rewrite (lstrip_digits _ Hd), (rstrip_digits _ Hd).
  destruct s as [|c s]; [discriminate|].
  assert (Hc : is_Some (digit_of c)).
  { rewrite all_digits_cons in Hd. apply andb_prop in Hd as [Hc _].
    by apply bool_decide_eq_true in Hc. }
  rewrite (split_sign_digit _ _ Hc).
  rewrite (digits_value_digits _ 0 0 false Hd) by (left; done).
  apply Nat.leb_le in Hlen.
  destruct (_ <? _)%nat eqn:E; [apply Nat.ltb_lt in E; rewrite Nat.add_0_l in E; lia|].
  reflexivity.
Qed.

Lemma getitem_dict d k v : d !! k = Some v → getitem (JDict d) k = Ok v.
Proof. unfold getitem. by intros ->. Qed.

Lemma get_dict d k dflt : get (JDict d) k dflt = Ok (default dflt (d !! k)).
Proof. reflexivity. Qed.

Lemma count_field_parsed stats k :
  count_or_absent stats k = true →
  get (JDict stats) k (JInt 0) ≫= int = Ok (count_value stats k).
Proof.
  unfold count_or_absent, count_value, get. simpl.
  destruct (stats !! k) as [[| | |s| |]|]; try discriminate; simpl; [|reflexivity].
  apply int_of_str_wire_count.
Qed.

Lemma count_value_nonneg stats k : 0 ≤ count_value stats k.
Proof.
  unfold count_value. destruct (stats !! k) as [[| | |s| |]|]; try lia.
  apply decimal_value_nonneg.
Qed.

Lemma count_value_absent stats k : stats !! k = None → count_value stats k = 0.
Proof. unfold count_value. by intros ->. Qed.

(** The formatting step accepts every channel resource, with absent
    counts read as [0]. *)
Lemma format_channel_resource item :
  channel_resource item = true →
  ∃ ch, _format_channel_data item = Ok ch
        ∧ Channel.subscriber_count ch = count_value (statistics_of item) "subscriberCount"
        ∧ Channel.view_count ch = count_value (statistics_of item) "viewCount"
        ∧ Channel.video_count ch = count_value (statistics_of item) "videoCount".
Proof.
  destruct item as [| | | | |d]; try discriminate.
  unfold channel_resource, statistics_of.
  destruct (d !! "id") as [id|] eqn:Hid;
    [|intros H; repeat (apply andb_prop in H as [H ?]); by apply bool_decide_eq_true in H as [? ?]].
  destruct (d !! "snippet") as [[| | | | |snippet]|] eqn:Hsn;
    try (intros H; repeat (apply andb_prop in H as [H ?]); discriminate).
  destruct (d !! "statistics") as [[| | | | |stats]|] eqn:Hst;
    try (intros H; repeat (apply andb_prop in H as [? H]); discriminate).
  intros H. apply andb_prop in H as [H Hcounts]. apply andb_prop in H as [_ Hsnip].
  repeat (apply andb_prop in Hsnip as [Hsnip ?]).
  repeat (apply andb_prop in Hcounts as [Hcounts ?]).
  repeat match goal with
         | H : bool_decide (is_Some _) = true |- _ =>
             apply bool_decide_eq_true in H as [? H]
         end.
  unfold _format_channel_data.
  rewrite !(getitem_dict _ _ _ Hid), !(getitem_dict _ _ _ Hsn), !(getitem_dict _ _ _ Hst).
  cbn [mbind result_bind].
  repeat match goal with
         | H : snippet !! _ = Some _ |- _ => rewrite !(getitem_dict _ _ _ H); clear H
         end.
  cbn [mbind result_bind].
  rewrite !count_field_parsed by assumption. rewrite !get_dict.
  cbn [mbind result_bind].
  eexists. split; [reflexivity|]. simpl. auto.
Qed.

(** * Properties of the resolver *)

Section Resolver.
Context {S : Type}.
Variable execute : request → S → result (gmap string json) * S.

Ltac run :=
  unfold try_except, execute_request, mbind, Py_bind, mret, Py_ret, lift, raise,
    record_call in *.

Lemma lookup_by_id_hit ident w response s' item rest ch :
  execute (by_id_request ident) (transport w) = (Ok response, s') →
  response !! "items" = Some (JList (item :: rest)) →
  _format_channel_data item = Ok ch →
  lookup_by_id execute ident w = (Ok (Some ch), record_call w (by_id_request ident) s').
Proof.
  intros Hex Hitems Hfmt. unfold lookup_by_id, has_items, first_item, by_id_request in *.
  run. rewrite Hex, Hitems. simpl. rewrite Hitems. simpl. rewrite Hfmt. reflexivity.
Qed.

(** The first [try] block never raises and executes exactly one request. *)
Lemma lookup_by_id_falls_through ident w :
  ∃ o, lookup_by_id execute ident w
       = (Ok o, record_call w (by_id_request ident)
                  (execute (by_id_request ident) (transport w)).2).
Proof.
  unfold lookup_by_id, by_id_request. run.
  destruct (execute _ (transport w)) as [[response|e] s']; simpl; [|eauto].
  destruct (has_items response); [|eauto].
  destruct (first_item response) as [item|e]; simpl; [|eauto].
  destruct (_format_channel_data item); simpl; eauto.
Qed.

Lemma lookup_by_username_falls_through ident w :
  ∃ o, lookup_by_username execute ident w
       = (Ok o, record_call w (by_username_request ident)
                  (execute (by_username_request ident) (transport w)).2).
Proof.
  unfold lookup_by_username, by_username_request. run.
  destruct (execute _ (transport w)) as [[response|e] s']; simpl; [|eauto].
  destruct (has_items response); [|eauto].
  destruct (first_item response) as [item|e]; simpl; [|eauto].
  destruct (_format_channel_data item); simpl; eauto.
Qed.

Lemma lookup_by_search_falls_through ident w :
  ∃ o w', lookup_by_search execute ident w = (Ok o, w').
Proof.
  unfold lookup_by_search. run.
  destruct (execute _ (transport w)) as [[response|e] s']; simpl; [|eauto].
  destruct (has_items response); [|eauto].
  destruct (first_item response) as [item|e]; simpl; [|eauto].
  destruct (getitem item "id") as [ids|e]; simpl; [|eauto].
  destruct (getitem ids "channelId") as [channel_id|e]; simpl; [|eauto].
  destruct (execute _ s') as [[response'|e] s'']; simpl; [|eauto].
  destruct (has_items response'); [|eauto].
  destruct (first_item response') as [item'|e]; simpl; [|eauto].
  destruct (_format_channel_data item'); simpl; eauto.
Qed.

(** Whatever the platform does, [get_channel_info] returns a record or
    raises the not-found [ValueError]: the [except HttpError] clause
    never runs. *)
Lemma get_channel_info_outcomes ident w :
  ∃ w',
    (∃ ch, get_channel_info execute ident w = (Ok ch, w'))
    ∨ get_channel_info execute ident w
      = (Raise (ValueError ("Error fetching channel info: "
                            +:+ not_found_text (strip_at ident))), w').
Proof.
  unfold get_channel_info.
  destruct (lookup_by_id_falls_through (strip_at ident) w) as [o1 H1].
  set (w1 := record_call _ _ _) in H1.
  destruct (lookup_by_username_falls_through (strip_at ident) w1) as [o2 H2].
  set (w2 := record_call _ _ _) in H2.
  destruct (lookup_by_search_falls_through (strip_at ident) w2) as (o3 & w3 & H3).
  unfold try_except, mbind, Py_bind. rewrite H1.
  destruct o1 as [ch|]; [exists w1; left; eauto|].
  rewrite H2. destruct o2 as [ch|]; [exists w2; left; eauto|].
  rewrite H3. destruct o3 as [ch|]; [exists w3; left; eauto|].
  exists w3. right. reflexivity.
Qed.

(** The record [get_channel_info] returns when the lookup by id finds a
    record the formatting step accepts; one request was executed. *)
Lemma get_channel_info_by_id_hit ident w response s' item rest ch :
  execute (by_id_request (strip_at ident)) (transport w) = (Ok response, s') →
  response !! "items" = Some (JList (item :: rest)) →
  _format_channel_data item = Ok ch →
  get_channel_info execute ident w
  = (Ok ch, record_call w (by_id_request (strip_at ident)) s').
Proof.
  intros Hex Hitems Hfmt. unfold get_channel_info, try_except, mbind, Py_bind.
  by rewrite (lookup_by_id_hit _ _ _ _ _ _ _ Hex Hitems Hfmt).
Qed.

(** C7: when the lookup by id (on the identifier without its leading
    ['@']) answers with a non-empty list whose first item is a channel
    resource, [get_channel_info] returns the formatted record of that
    item, and the only request executed is the lookup by id: neither the
    lookup by username nor the search is invoked. *)
Theorem by_id_hit_returns_immediately ident w response s' item rest :
  execute (by_id_request (strip_at ident)) (transport w) = (Ok response, s') →
  response !! "items" = Some (JList (item :: rest)) →
  channel_resource item = true →
  ∃ ch w',
    _format_channel_data item = Ok ch
    ∧ get_channel_info execute ident w = (Ok ch, w')
    ∧ calls w' = calls w ++ [by_id_request (strip_at ident)]
    ∧ transport w' = s'.
Proof.
  intros Hex Hitems Hres.
  destruct (format_channel_resource item Hres) as (ch & Hfmt & _).
  exists ch, (record_call w (by_id_request (strip_at ident)) s').
  split; [done|]. split; [|done].
  by apply get_channel_info_by_id_hit with response item rest.
Qed.

(** C6, amended: when the three tiers fall through, [get_channel_info]
    raises a [ValueError] whose text names the identifier without its
    leading ['@']. *)
Theorem not_found_names_stripped_identifier ident w w1 w2 w3 :
  lookup_by_id execute (strip_at ident) w = (Ok None, w1) →
  lookup_by_username execute (strip_at ident) w1 = (Ok None, w2) →
  lookup_by_search execute (strip_at ident) w2 = (Ok None, w3) →
  get_channel_info execute ident w
  = (Raise (ValueError
              ("Error fetching channel info: Channel '" +:+ strip_at ident
               +:+ "' not found. Please check the channel ID or username.")), w3).
Proof.
  intros H1 H2 H3. unfold get_channel_info, try_except, mbind, Py_bind.
  by rewrite H1, H2, H3.
Qed.

(** C8: when the channel's uploads collection has no items,
    [get_channel_videos] returns the empty list; the batched lookup of
    video details is not executed. *)
Theorem no_uploads_gives_empty_list channel_id max_results w
    response1 s1 item rest uploads response2 s2 :
  execute (ChannelsList_id "contentDetails" channel_id) (transport w)
    = (Ok response1, s1) →
  response1 !! "items" = Some (JList (item :: rest)) →
  uploads_of item = Ok uploads →
  execute (PlaylistItemsList "snippet,contentDetails" uploads max_results) s1
    = (Ok response2, s2) →
  response2 !! "items" = Some (JList []) →
  ∃ w',
    get_channel_videos execute channel_id max_results w = (Ok [], w')
    ∧ calls w' = calls w ++ [ChannelsList_id "contentDetails" channel_id;
                             PlaylistItemsList "snippet,contentDetails"
                               uploads max_results]
    ∧ transport w' = s2.
Proof.
  intros Hex1 Hitems1 Hup Hex2 Hitems2.
  eexists. unfold get_channel_videos, first_item. run.
  rewrite Hex1. rewrite !(getitem_dict _ _ _ Hitems1).
  cbn [truthy negb getitem0 mbind result_bind transport].
  rewrite Hup. cbn [transport]. rewrite Hex2.
  rewrite (getitem_dict _ _ _ Hitems2).
  cbn [iterate list_comprehension mbind result_bind calls transport].
  split; [reflexivity|]. by rewrite <- app_assoc.
Qed.
End Resolver.

(** C9: a statistics field that is absent from a channel resource is read
    as [0] by the formatting step, a field that is present is read off its
    digits as a non-negative integer, and a resolution that finds the
    resource succeeds with these counts. *)
Theorem absent_statistics_read_as_zero item :
  channel_resource item = true →
  ∃ ch,
    _format_channel_data item = Ok ch
    ∧ Channel.subscriber_count ch = count_value (statistics_of item) "subscriberCount"
    ∧ Channel.view_count ch = count_value (statistics_of item) "viewCount"
    ∧ Channel.video_count ch = count_value (statistics_of item) "videoCount"
    ∧ (statistics_of item !! "subscriberCount" = None → Channel.subscriber_count ch = 0)
    ∧ (statistics_of item !! "viewCount" = None → Channel.view_count ch = 0)
    ∧ (statistics_of item !! "videoCount" = None → Channel.video_count ch = 0)
    ∧ 0 ≤ Channel.subscriber_count ch
    ∧ 0 ≤ Channel.view_count ch
    ∧ 0 ≤ Channel.video_count ch
    ∧ ∀ S (execute : request → S → result (gmap string json) * S)
        ident w response s' rest,
        execute (by_id_request (strip_at ident)) (transport w) = (Ok response, s') →
        response !! "items" = Some (JList (item :: rest)) →
        get_channel_info execute ident w
        = (Ok ch, record_call w (by_id_request (strip_at ident)) s').
Proof.
  intros Hres. destruct (format_channel_resource item Hres) as (ch & Hfmt & Hs & Hv & Hn).
  exists ch. rewrite Hs, Hv, Hn.
  repeat split; auto using count_value_absent, count_value_nonneg.
  intros S execute ident w response s' rest Hex Hitems.
  by apply get_channel_info_by_id_hit with response item rest.
Qed.

Lemma absent_statistics_read_as_zero_witness :
  ∃ ch,
    _format_channel_data sample_channel = Ok ch
    ∧ Channel.subscriber_count ch
      = count_value (statistics_of sample_channel) "subscriberCount"
    ∧ Channel.view_count ch = count_value (statistics_of sample_channel) "viewCount"
    ∧ Channel.video_count ch = count_value (statistics_of sample_channel) "videoCount"
    ∧ (statistics_of sample_channel !! "subscriberCount" = None
       → Channel.subscriber_count ch = 0)
    ∧ (statistics_of sample_channel !! "viewCount" = None → Channel.view_count ch = 0)
    ∧ (statistics_of sample_channel !! "videoCount" = None → Channel.video_count ch = 0)
    ∧ 0 ≤ Channel.subscriber_count ch
    ∧ 0 ≤ Channel.view_count ch
    ∧ 0 ≤ Channel.video_count ch
    ∧ ∀ S (execute : request → S → result (gmap string json) * S)
        ident w response s' rest,
        execute (by_id_request (strip_at ident)) (transport w) = (Ok response, s') →
        response !! "items" = Some (JList (sample_channel :: rest)) →
        get_channel_info execute ident w
        = (Ok ch, record_call w (by_id_request (strip_at ident)) s').
Proof. apply (absent_statistics_read_as_zero sample_channel). vm_compute. reflexivity. Defined.

Lemma by_id_hit_returns_immediately_witness :
  ∃ ch w',
    _format_channel_data sample_channel = Ok ch
    ∧ get_channel_info id_platform "@google" (new_world ()) = (Ok ch, w')
    ∧ calls w' = calls (new_world ()) ++ [by_id_request (strip_at "@google")]
    ∧ transport w' = ().
Proof.
  apply (by_id_hit_returns_immediately id_platform "@google" (new_world ())
           (items_of [sample_channel]) () sample_channel []).
  - reflexivity.
  - vm_compute. reflexivity.
  - vm_compute. reflexivity.
Defined.

Lemma not_found_names_stripped_identifier_witness :
  get_channel_info empty_platform "@google" (new_world ())
  = (Raise (ValueError
              ("Error fetching channel info: Channel '" +:+ strip_at "@google"
               +:+ "' not found. Please check the channel ID or username.")),
     record_call
       (record_call
          (record_call (new_world ()) (by_id_request "google") ())
          (by_username_request "google") ())
       (search_request "google") ()).
Proof.
  apply (not_found_names_stripped_identifier empty_platform "@google" (new_world ())
           (record_call (new_world ()) (by_id_request "google") ())
           (record_call (record_call (new_world ()) (by_id_request "google") ())
              (by_username_request "google") ())).
  - vm_compute. reflexivity.
  - vm_compute. reflexivity.
  - vm_compute. reflexivity.
Defined.

(** C6, as stated, fails on ["@google"]: every tier falls through on a
    platform that knows no channel, and the text of the error does not
    contain the identifier the caller supplied. *)
Lemma not_found_drops_leading_at :
  ∃ w1 w2 w3 text,
    lookup_by_id empty_platform (strip_at "@google") (new_world ()) = (Ok None, w1)
    ∧ lookup_by_username empty_platform (strip_at "@google") w1 = (Ok None, w2)
    ∧ lookup_by_search empty_platform (strip_at "@google") w2 = (Ok None, w3)
    ∧ get_channel_info empty_platform "@google" (new_world ())
      = (Raise (ValueError text), w3)
    ∧ text = "Error fetching channel info: Channel 'google' not found. Please check the channel ID or username."
    ∧ carries text "@google" = false.
Proof.
  do 4 eexists. repeat apply conj; vm_compute; reflexivity.
Qed.

(** C2 at its failing inputs.  On a platform that refuses every request
    with status 403, the three tiers are all attempted and the error raised
    is the not-found one, not the quota one.  When only the lookup by id is
    refused, the lookup by username is attempted next and its record is
    returned. *)
Theorem quota_error_on_lookup_by_id_is_swallowed :
  get_channel_info refusing_platform "@google" (new_world ())
  = (Raise (ValueError
       "Error fetching channel info: Channel 'google' not found. Please check the channel ID or username."),
     {| transport := ();
        calls := [by_id_request "google"; by_username_request "google";
                  search_request "google"];
        clock_reads := 0; random_draws := 0 |})
  ∧ ∃ ch,
      get_channel_info quota_platform "@google" (new_world ())
      = (Ok ch,
         {| transport := ();
            calls := [by_id_request "google"; by_username_request "google"];
            clock_reads := 0; random_draws := 0 |}).
Proof. split; [|eexists]; vm_compute; reflexivity. Qed.

Lemma no_uploads_gives_empty_list_witness :
  ∃ w',
    get_channel_videos no_uploads_platform (JStr "UC123") 50 (new_world ()) = (Ok [], w')
    ∧ calls w' = calls (new_world ())
                 ++ [ChannelsList_id "contentDetails" (JStr "UC123");
                     PlaylistItemsList "snippet,contentDetails" (JStr "UU123") 50]
    ∧ transport w' = ().
Proof.
  apply (no_uploads_gives_empty_list no_uploads_platform (JStr "UC123") 50 (new_world ())
           (items_of [JDict {[ "contentDetails" :=
              JDict {[ "relatedPlaylists" := JDict {[ "uploads" := JStr "UU123" ]} ]} ]}])
           ()
           (JDict {[ "contentDetails" :=
              JDict {[ "relatedPlaylists" := JDict {[ "uploads" := JStr "UU123" ]} ]} ]})
           [] (JStr "UU123") (items_of []) ()).
  - reflexivity.
  - vm_compute. reflexivity.
  - vm_compute. reflexivity.
  - reflexivity.
  - vm_compute. reflexivity.
Defined.

(** * Rounding to binary64 *)

Section Binary64.

#[local] Abbreviation emin := (-1074).
#[local] Abbreviation digits p := (Z.pos (digits2_pos p)).

Lemma fexp_unfold e : fexp 53 1024 e = Z.max (e - 53) emin.
Proof. reflexivity. Qed.

(** The number of binary digits of a positive number. *)
Lemma digits_bounds p : 2 ^ (digits p - 1) ≤ Z.pos p < 2 ^ digits p.
Proof.
  induction p as [p IH|p IH|]; cbn [digits2_pos].
  - rewrite Pos2Z.inj_succ, Z.pow_succ_r by lia.
    replace (Z.succ (digits p) - 1) with (Z.succ (digits p - 1)) by lia.
    rewrite Z.pow_succ_r by lia. lia.
  - rewrite Pos2Z.inj_succ, Z.pow_succ_r by lia.
    replace (Z.succ (digits p) - 1) with (Z.succ (digits p - 1)) by lia.
    rewrite Z.pow_succ_r by lia. lia.
  - simpl. lia.
Qed.

Lemma digits_le p k : 0 ≤ k → Z.pos p < 2 ^ k → digits p ≤ k.
Proof.
  intros Hk Hp. destruct (Z.le_gt_cases (digits p) k) as [|Hgt]; [done|].
  pose proof (digits_bounds p) as [Hlo _].
  assert (2 ^ k ≤ 2 ^ (digits p - 1)) by (apply Z.pow_le_mono_r; lia). lia.
Qed.

Lemma digits_gt p k : 2 ^ k ≤ Z.pos p → k < digits p.
Proof.
  intros Hp. destruct (Z.lt_ge_cases k (digits p)) as [|Hge]; [done|].
  pose proof (digits_bounds p) as [_ Hhi].
  assert (2 ^ digits p ≤ 2 ^ k) by (apply Z.pow_le_mono_r; lia). lia.
Qed.

(** Shifting a non-negative mantissa right by one bit halves it. *)
Lemma shr_1_m r : 0 ≤ shr_m r → shr_m (shr_1 r) = shr_m r / 2.
Proof.
  destruct r as [m r s]. cbn [shr_m shr_1]. intros Hm.
  destruct m as [|[p|p|]|p]; cbn [shr_m]; try lia; try reflexivity.
  - rewrite (Pos2Z.inj_xI p). apply Z.div_unique with 1; lia.
  - rewrite (Pos2Z.inj_xO p). apply Z.div_unique with 0; lia.
Qed.

Lemma iter_shr_1_m p r :
  0 ≤ shr_m r → shr_m (SpecFloat.iter_pos shr_1 p r) = shr_m r / 2 ^ Z.pos p.
Proof.
  revert r. induction p as [p IH|p IH|]; intros r Hm; cbn [SpecFloat.iter_pos].
  - assert (0 ≤ shr_m (shr_1 r)) by (rewrite shr_1_m by done; apply Z.div_pos; lia).
    assert (0 ≤ shr_m (SpecFloat.iter_pos shr_1 p (shr_1 r)))
      by (rewrite IH by done; apply Z.div_pos; lia).
    rewrite !IH, shr_1_m, !Z.div_div by lia.
    f_equal. rewrite (Pos2Z.inj_xI p).
    replace (2 * Z.pos p + 1) with (1 + Z.pos p + Z.pos p) by lia.
    rewrite !Z.pow_add_r by lia. lia.
  - assert (0 ≤ shr_m (SpecFloat.iter_pos shr_1 p r))
      by (rewrite IH by done; apply Z.div_pos; lia).
    rewrite !IH, !Z.div_div by lia.
    f_equal. rewrite (Pos2Z.inj_xO p).
    replace (2 * Z.pos p) with (Z.pos p + Z.pos p) by lia.
    rewrite !Z.pow_add_r by lia. lia.
  - rewrite shr_1_m by done. reflexivity.
Qed.

(** [shr] divides the mantissa by a power of two and raises the
    exponent by as much. *)
Lemma shr_m_shr r e n :
  0 ≤ shr_m r →
  shr_m (shr r e n).1 = shr_m r / 2 ^ Z.max n 0 ∧ (shr r e n).2 = e + Z.max n 0.
Proof.
  intros Hm. destruct n as [|p|p]; cbn [shr fst snd].
  - rewrite Z.div_1_r. lia.
  - rewrite iter_shr_1_m by done.
    replace (Z.max (Z.pos p) 0) with (Z.pos p) by lia. done.
  - replace (Z.max (Z.neg p) 0) with 0 by lia. rewrite Z.div_1_r. lia.
Qed.

Lemma shr_m_record_of_loc m l : shr_m (shr_record_of_loc m l) = m.
Proof. by destruct l as [|[]]. Qed.

Lemma round_nearest_even_bounds m l :
  m ≤ round_nearest_even m l ≤ m + 1.
Proof.
  destruct l as [|[]]; cbn [round_nearest_even]; try lia.
  destruct (Z.even m); lia.
Qed.


Lemma div_pow2_lt a n k : 0 ≤ n → 0 ≤ k → a < 2 ^ (k + n) → a / 2 ^ n < 2 ^ k.
Proof.
  intros Hn Hk Ha. apply Z.div_lt_upper_bound; [lia|].
  by rewrite <- Z.pow_add_r, (Z.add_comm n k) by lia.
Qed.

Lemma div_pow2_le a n k : 0 ≤ n → 0 ≤ k → 2 ^ (k + n) ≤ a → 2 ^ k ≤ a / 2 ^ n.
Proof.
  intros Hn Hk Ha. apply Z.div_le_lower_bound; [lia|].
  by rewrite <- Z.pow_add_r, (Z.add_comm n k) by lia.
Qed.

Lemma bounded_intro m e :
  fexp 53 1024 (digits m + e) = e → e ≤ 971 → bounded 53 1024 m e = true.
Proof.
  intros Hc He. unfold bounded, canonical_mantissa.
  apply andb_true_intro. split; [by apply Z.eqb_eq | by apply Z.leb_le].
Qed.

Lemma bounded_elim m e :
  bounded 53 1024 m e = true →
  Z.max (digits m + e - 53) emin = e ∧ e ≤ 971.
Proof.
  unfold bounded, canonical_mantissa. intros [Hc He]%andb_prop.
  apply Z.eqb_eq in Hc. apply Z.leb_le in He. rewrite fexp_unfold in Hc. done.
Qed.

(** Rounding a mantissa that carries at least the precision of the
    format: the result keeps the sign, is canonical, and exceeds the
    magnitude by at most one binary digit. *)
Lemma binary_round_aux_below s p e l K :
  e ≤ fexp 53 1024 (digits p + e) →
  digits p + e + 1 ≤ K → emin + 1 ≤ K → K ≤ 1024 →
  below s K (binary_round_aux 53 1024 s (Z.pos p) e l).
Proof.
  rewrite fexp_unfold. intros Hprec HK Hmin Hmax.
  pose proof (digits_bounds p) as [Hlo Hhi].
  set (d := digits p) in *.
  unfold binary_round_aux.
  destruct (shr_fexp 53 1024 (Z.pos p) e l) as [mrs1 e1] eqn:E1.
  unfold shr_fexp in E1. cbn [Zdigits2] in E1. rewrite fexp_unfold in E1. fold d in E1.
  destruct (shr_m_shr (shr_record_of_loc (Z.pos p) l) e (Z.max (d + e - 53) emin - e))
    as [Hm1 He1]; [rewrite shr_m_record_of_loc; lia|].
  rewrite E1 in Hm1, He1. cbn [fst snd] in Hm1, He1.
  rewrite shr_m_record_of_loc in Hm1.
  pose proof (round_nearest_even_bounds (shr_m mrs1) (loc_of_shr_record mrs1)) as Hrne.
  set (m2 := round_nearest_even (shr_m mrs1) (loc_of_shr_record mrs1)) in *.
  destruct (shr_fexp 53 1024 m2 e1 loc_Exact) as [mrs2 e2] eqn:E2.
  unfold shr_fexp in E2. rewrite fexp_unfold in E2.
  assert (Hm1pos : 0 ≤ shr_m mrs1) by (rewrite Hm1; apply Z.div_pos; lia).
  destruct (shr_m_shr (shr_record_of_loc m2 loc_Exact) e1
              (Z.max (Zdigits2 m2 + e1 - 53) emin - e1)) as [Hm3 He2];
    [cbn [shr_record_of_loc shr_m]; lia|].
  rewrite E2 in Hm3, He2. cbn [fst snd shr_record_of_loc shr_m] in Hm3, He2.
  destruct (Z.le_gt_cases emin (d + e - 53)) as [Hnormal|Hsub].
  - (* the result is in the normal range *)
    replace (Z.max (Z.max (d + e - 53) emin - e) 0) with (d - 53) in Hm1, He1 by lia.
    assert (2 ^ 52 ≤ shr_m mrs1 < 2 ^ 53) as [Hlo1 Hhi1].
    { rewrite Hm1. split.
      - apply div_pow2_le; [lia..|]. by replace (52 + (d - 53)) with (d - 1) by lia.
      - apply div_pow2_lt; [lia..|]. by replace (53 + (d - 53)) with d by lia. }
    destruct m2 as [|p2|p2] eqn:Ep2; [lia| |lia].
    cbn [Zdigits2] in Hm3, He2.
    destruct (Z.lt_ge_cases (Z.pos p2) (2 ^ 53)) as [Hlt|Hge].
    + assert (digits p2 = 53).
      { pose proof (digits_le p2 53 ltac:(lia) Hlt).
        pose proof (digits_gt p2 52 ltac:(lia)). lia. }
      replace (Z.max (Z.max (digits p2 + e1 - 53) emin - e1) 0) with 0 in Hm3, He2 by lia.
      rewrite Z.div_1_r in Hm3. rewrite Hm3.
      destruct (Z.leb_spec e2 (1024 - 53)); [|lia].
      cbn [below]. split; [done|]. split; [|lia].
      apply bounded_intro; [rewrite fexp_unfold|]; lia.
    + assert (Z.pos p2 = 2 ^ 53) as Hp2 by lia.
      assert (digits p2 = 54).
      { pose proof (digits_le p2 54 ltac:(lia) ltac:(rewrite Hp2; reflexivity)).
        pose proof (digits_gt p2 53 ltac:(lia)). lia. }
      replace (Z.max (Z.max (digits p2 + e1 - 53) emin - e1) 0) with 1 in Hm3, He2 by lia.
      rewrite Hp2 in Hm3. change (2 ^ 53 / 2 ^ 1) with (Z.pos 4503599627370496) in Hm3.
      rewrite Hm3.
      destruct (Z.leb_spec e2 (1024 - 53)); [|lia].
      cbn [below]. split; [done|].
      change (digits 4503599627370496) with 53. split; [|lia].
      apply bounded_intro; [rewrite fexp_unfold|];
        change (digits 4503599627370496) with 53; lia.
  - (* the result is subnormal or the least normal number *)
    replace (Z.max (Z.max (d + e - 53) emin - e) 0) with (emin - e) in Hm1, He1 by lia.
    set (q := Z.max (d - (emin - e)) 0).
    assert (shr_m mrs1 < 2 ^ q) as Hhi1.
    { rewrite Hm1. apply div_pow2_lt; [lia..|].
      eapply Z.lt_le_trans; [exact Hhi|]. apply Z.pow_le_mono_r; lia. }
    destruct m2 as [|p2|p2] eqn:Ep2; [| |lia].
    + cbn [Zdigits2] in Hm3.
      replace (Z.max (Z.max (0 + e1 - 53) emin - e1) 0) with 0 in Hm3 by lia.
      rewrite Hm3. reflexivity.
    + cbn [Zdigits2] in Hm3, He2.
      assert (digits p2 ≤ q + 1).
      { apply digits_le; [lia|]. rewrite Z.pow_add_r by lia. lia. }
      replace (Z.max (Z.max (digits p2 + e1 - 53) emin - e1) 0) with 0 in Hm3, He2 by lia.
      rewrite Z.div_1_r in Hm3. rewrite Hm3.
      destruct (Z.leb_spec e2 (1024 - 53)); [|lia].
      cbn [below]. split; [done|]. split; [|lia].
      apply bounded_intro; [rewrite fexp_unfold|]; lia.
Qed.

End Binary64.
Section Binary64Ops.

#[local] Abbreviation emin := (-1074).
#[local] Abbreviation digits p := (Z.pos (digits2_pos p)).

Lemma below_mono s k k' x : below s k x → k ≤ k' → below s k' x.
Proof. destruct x; cbn [below]; try done. intros (? & ? & ?) ?. repeat split; [done..|lia]. Qed.

Lemma digits_mul_le p q : digits (p * q) ≤ digits p + digits q.
Proof.
  pose proof (digits_bounds p) as [_ Hp]. pose proof (digits_bounds q) as [_ Hq].
  apply digits_le; [lia|]. rewrite Pos2Z.inj_mul, Z.pow_add_r by lia. nia.
Qed.

Lemma digits_mul_ge p q : digits p + digits q - 1 ≤ digits (p * q).
Proof.
  pose proof (digits_bounds p) as [Hp _]. pose proof (digits_bounds q) as [Hq _].
  assert (digits p + digits q - 2 < digits (p * q)); [|lia].
  apply digits_gt.
  replace (digits p + digits q - 2) with ((digits p - 1) + (digits q - 1)) by lia.
  rewrite Pos2Z.inj_mul, Z.pow_add_r by lia.
  assert (0 < 2 ^ (digits p - 1)) by (apply Z.pow_pos_nonneg; lia).
  assert (0 < 2 ^ (digits q - 1)) by (apply Z.pow_pos_nonneg; lia).
  nia.
Qed.

(** The product of two doubles: the sign is the exclusive or of the
    signs, the magnitude grows by at most one binary digit over the sum
    of the operands' digits. *)
Lemma fmul_below sx sy a b K x y :
  below sx a x → below sy b y →
  a + b + 1 ≤ K → emin + 1 ≤ K → K ≤ 1024 →
  below (xorb sx sy) K (fmul x y).
Proof.
  intros Hx Hy HK Hmin Hmax.
  destruct x as [sx'| | |sx' mx ex], y as [sy'| | |sy' my ey]; cbn [below] in Hx, Hy;
    try done; unfold fmul; cbn [SFmul below].
  - by subst.
  - destruct Hy as [-> _]. by subst.
  - destruct Hx as [-> _]. by subst.
  - destruct Hx as (-> & Hbx & Hdx), Hy as (-> & Hby & Hdy).
    apply bounded_elim in Hbx as [Hcx _], Hby as [Hcy _].
    pose proof (digits_mul_le mx my). pose proof (digits_mul_ge mx my).
    pose proof (Pos2Z.is_pos (digits2_pos mx)). pose proof (Pos2Z.is_pos (digits2_pos my)).
    apply binary_round_aux_below; [rewrite fexp_unfold|..]; lia.
Qed.

Lemma pos_iter_xO p d : Z.pos (Pos.iter xO p d) = Z.pos p * 2 ^ Z.pos d.
Proof.
  induction d as [|d IH] using Pos.peano_ind.
  - cbn [Pos.iter]. rewrite Z.pow_1_r. lia.
  - rewrite Pos.iter_succ, Pos2Z.inj_xO, IH, Pos2Z.inj_succ, Z.pow_succ_r by lia. lia.
Qed.

Lemma digits_iter_xO p d : digits (Pos.iter xO p d) = digits p + Z.pos d.
Proof.
  induction d as [|d IH] using Pos.peano_ind.
  - cbn [Pos.iter digits2_pos]. lia.
  - rewrite Pos.iter_succ. cbn [digits2_pos]. rewrite Pos2Z.inj_succ, IH. lia.
Qed.

(** Aligning a mantissa to a smaller exponent multiplies it by the power
    of two in between. *)
Lemma shl_align_le m e e' :
  e' ≤ e →
  Z.pos (shl_align m e e').1 = Z.pos m * 2 ^ (e - e')
  ∧ digits (shl_align m e e').1 = digits m + (e - e')
  ∧ (shl_align m e e').2 = e'.
Proof.
  intros He. unfold shl_align.
  destruct (e' - e) as [|d|d] eqn:Ed; cbn [fst snd]; try lia.
  - replace (e - e') with 0 by lia. rewrite Z.pow_0_r. lia.
  - rewrite pos_iter_xO, digits_iter_xO. replace (e - e') with (Z.pos d) by lia. done.
Qed.

Lemma shl_align_ge m e e' : e ≤ e' → shl_align m e e' = (m, e).
Proof. intros He. unfold shl_align. destruct (e' - e) eqn:Ed; try done. lia. Qed.

Lemma binary_round_below s p e K :
  digits p + e + 1 ≤ K → emin + 1 ≤ K → K ≤ 1024 →
  below s K (binary_round 53 1024 s p e).
Proof.
  intros HK Hmin Hmax. unfold binary_round.
  set (t := fexp 53 1024 (digits p + e)).
  destruct (Z.le_gt_cases e t) as [Hle|Hgt].
  - rewrite shl_align_ge by done. by apply binary_round_aux_below.
  - destruct (shl_align_le p e t ltac:(lia)) as (Hm & Hd & He).
    destruct (shl_align p e t) as [mz ez]. cbn [fst snd] in *. subst ez.
    apply binary_round_aux_below; [|lia..].
    rewrite Hd. replace (digits p + (e - t) + t) with (digits p + e) by lia.
    subst t. lia.
Qed.

Lemma binary_normalize_below z e K :
  Zdigits2 z + e + 1 ≤ K → emin + 1 ≤ K → K ≤ 1024 →
  below (z <? 0) K (binary_normalize 53 1024 z e false).
Proof.
  intros HK Hmin Hmax. destruct z as [|p|p]; cbn [binary_normalize Zdigits2] in *.
  - reflexivity.
  - by apply binary_round_below.
  - by apply binary_round_below.
Qed.

Lemma Zdigits2_le z k : 0 ≤ k → Z.abs z < 2 ^ k → Zdigits2 z ≤ k.
Proof.
  intros Hk Hz. destruct z as [|p|p]; cbn [Zdigits2]; [lia|by apply digits_le..].
Qed.

(** [float(n)] succeeds on an int of fewer than 1024 bits. *)
Lemma float_of_int_below n k :
  0 ≤ k < 1024 → Z.abs n < 2 ^ k →
  ∃ f, float_of_int n = Ok f ∧ below (n <? 0) (k + 1) f.
Proof.
  intros Hk Hn. pose proof (Zdigits2_le n k ltac:(lia) Hn).
  pose proof (binary_normalize_below n 0 (k + 1) ltac:(lia) ltac:(lia) ltac:(lia)) as Hb.
  unfold float_of_int. destruct (binary_normalize 53 1024 n 0 false); try done; eauto.
Qed.

(** The sum and the difference of two doubles. *)
Lemma fadd_below sx sy a b K x y :
  below sx a x → below sy b y →
  Z.max a b + 2 ≤ K → emin + 1 ≤ K → K ≤ 1024 →
  ∃ s, below s K (fadd x y) ∧ (sx = false → sy = false → s = false).
Proof.
  intros Hx Hy HK Hmin Hmax.
  destruct x as [sx'| | |sx' mx ex], y as [sy'| | |sy' my ey]; cbn [below] in Hx, Hy;
    try done; unfold fadd; cbn [SFadd].
  - subst. destruct sx, sy; eexists; split; try reflexivity; done.
  - exists sy. split; [|done]. eapply below_mono; [exact Hy|lia].
  - exists sx. split; [|done]. eapply below_mono; [exact Hx|lia].
  - destruct Hx as (-> & Hbx & Hdx), Hy as (-> & Hby & Hdy).
    set (ez := Z.min ex ey).
    destruct (shl_align_le mx ex ez ltac:(lia)) as (Hmx & _ & _).
    destruct (shl_align_le my ey ez ltac:(lia)) as (Hmy & _ & _).
    set (z := cond_Zopp sx (Z.pos (shl_align mx ex ez).1)
              + cond_Zopp sy (Z.pos (shl_align my ey ez).1)).
    exists (z <? 0). split.
    + apply binary_normalize_below; [|lia..].
      pose proof (digits_bounds mx) as [_ Hhx]. pose proof (digits_bounds my) as [_ Hhy].
      pose proof (Pos2Z.is_pos (digits2_pos mx)). pose proof (Pos2Z.is_pos (digits2_pos my)).
      assert (Zdigits2 z ≤ Z.max a b - ez + 1); [|lia].
      apply Zdigits2_le; [lia|].
      assert (Z.pos mx * 2 ^ (ex - ez) < 2 ^ (Z.max a b - ez)).
      { eapply Z.lt_le_trans with (2 ^ (digits mx + (ex - ez))).
        - rewrite Z.pow_add_r by lia. apply Z.mul_lt_mono_pos_r; [|done].
          apply Z.pow_pos_nonneg; lia.
        - apply Z.pow_le_mono_r; lia. }
      assert (Z.pos my * 2 ^ (ey - ez) < 2 ^ (Z.max a b - ez)).
      { eapply Z.lt_le_trans with (2 ^ (digits my + (ey - ez))).
        - rewrite Z.pow_add_r by lia. apply Z.mul_lt_mono_pos_r; [|done].
          apply Z.pow_pos_nonneg; lia.
        - apply Z.pow_le_mono_r; lia. }
      rewrite Z.pow_add_r, Z.pow_1_r by lia.
      subst z. rewrite Hmx, Hmy. destruct sx, sy; cbn [cond_Zopp]; lia.
    + intros -> ->. subst z. cbn [cond_Zopp]. apply Z.ltb_ge. lia.
Qed.

Lemma fsub_below sx sy a b K x y :
  below sx a x → below sy b y →
  Z.max a b + 2 ≤ K → emin + 1 ≤ K → K ≤ 1024 →
  ∃ s, below s K (fsub x y).
Proof.
  intros Hx Hy HK Hmin Hmax.
  destruct x as [sx'| | |sx' mx ex], y as [sy'| | |sy' my ey]; cbn [below] in Hx, Hy;
    try done; unfold fsub; cbn [SFsub].
  - subst. destruct sx, sy; eexists; reflexivity.
  - exists (negb sy). destruct Hy as (-> & Hby & Hdy). cbn [below]. repeat split; [done|lia].
  - exists sx. eapply below_mono; [exact Hx|lia].
  - destruct Hx as (-> & Hbx & Hdx), Hy as (-> & Hby & Hdy).
    set (ez := Z.min ex ey).
    destruct (shl_align_le mx ex ez ltac:(lia)) as (Hmx & _ & _).
    destruct (shl_align_le my ey ez ltac:(lia)) as (Hmy & _ & _).
    set (z := cond_Zopp sx (Z.pos (shl_align mx ex ez).1)
              - cond_Zopp sy (Z.pos (shl_align my ey ez).1)).
    exists (z <? 0).
    apply binary_normalize_below; [|lia..].
    pose proof (digits_bounds mx) as [_ Hhx]. pose proof (digits_bounds my) as [_ Hhy].
    pose proof (Pos2Z.is_pos (digits2_pos mx)). pose proof (Pos2Z.is_pos (digits2_pos my)).
    assert (Zdigits2 z ≤ Z.max a b - ez + 1); [|lia].
    apply Zdigits2_le; [lia|].
    assert (Z.pos mx * 2 ^ (ex - ez) < 2 ^ (Z.max a b - ez)).
    { eapply Z.lt_le_trans with (2 ^ (digits mx + (ex - ez))).
      - rewrite Z.pow_add_r by lia. apply Z.mul_lt_mono_pos_r; [|done].
        apply Z.pow_pos_nonneg; lia.
      - apply Z.pow_le_mono_r; lia. }
    assert (Z.pos my * 2 ^ (ey - ez) < 2 ^ (Z.max a b - ez)).
    { eapply Z.lt_le_trans with (2 ^ (digits my + (ey - ez))).
      - rewrite Z.pow_add_r by lia. apply Z.mul_lt_mono_pos_r; [|done].
        apply Z.pow_pos_nonneg; lia.
      - apply Z.pow_le_mono_r; lia. }
    rewrite Z.pow_add_r, Z.pow_1_r by lia.
    subst z. rewrite Hmx, Hmy. destruct sx, sy; cbn [cond_Zopp]; lia.
Qed.

(** [int(x)] succeeds on a finite double, and is non-negative when the
    double is. *)
Lemma int_of_float_below s k x :
  below s k x → ∃ v, int_of_float x = Ok v ∧ (s = false → 0 ≤ v).
Proof.
  destruct x as [s'| | |s' m e]; cbn [below int_of_float]; try done.
  - intros _. exists 0. split; [done|lia].
  - intros (-> & _ & _). eexists. split; [reflexivity|].
    intros ->. apply Z.shiftl_nonneg. lia.
Qed.

End Binary64Ops.
Section Binary64Exact.

#[local] Abbreviation emin := (-1074).
#[local] Abbreviation digits p := (Z.pos (digits2_pos p)).
#[local] Abbreviation exact m := {| shr_m := m; shr_r := false; shr_s := false |}.

Lemma shr_1_even m : 0 ≤ m → shr_1 (exact (2 * m)) = exact m.
Proof. destruct m as [|p|p]; [reflexivity|reflexivity|lia]. Qed.

(** Shifting out zero bits loses nothing. *)
Lemma iter_shr_1_exact p c :
  0 ≤ c → SpecFloat.iter_pos shr_1 p (exact (c * 2 ^ Z.pos p)) = exact c.
Proof.
  revert c. induction p as [p IH|p IH|]; intros c Hc; cbn [SpecFloat.iter_pos].
  - replace (c * 2 ^ Z.pos p~1) with (2 * (c * 2 ^ Z.pos p * 2 ^ Z.pos p)).
    + rewrite shr_1_even by nia. rewrite IH by nia. by apply IH.
    + rewrite (Pos2Z.inj_xI p).
      replace (2 * Z.pos p + 1) with (1 + Z.pos p + Z.pos p) by lia.
      rewrite !Z.pow_add_r by lia. lia.
  - replace (c * 2 ^ Z.pos p~0) with (c * 2 ^ Z.pos p * 2 ^ Z.pos p).
    + rewrite IH by nia. by apply IH.
    + rewrite (Pos2Z.inj_xO p).
      replace (2 * Z.pos p) with (Z.pos p + Z.pos p) by lia.
      rewrite !Z.pow_add_r by lia. lia.
  - rewrite Z.pow_1_r, Z.mul_comm. by apply shr_1_even.
Qed.

(** Multiplying by [1.0] is exact. *)
Lemma fmul_one_finite s m e :
  bounded 53 1024 m e = true →
  fmul (S754_finite s m e) lit_1_0 = S754_finite s m e.
Proof.
  intros Hb. pose proof Hb as [Hc He]%bounded_elim.
  unfold fmul, lit_1_0. cbn [SFmul]. rewrite xorb_false_r.
  unfold binary_round_aux, shr_fexp. cbn [Zdigits2 shr_record_of_loc].
  assert (Hm : Z.pos (m * 4503599627370496) = Z.pos m * 2 ^ 52) by (rewrite Pos2Z.inj_mul; lia).
  assert (Hd : digits (m * 4503599627370496) = digits m + 52).
  { pose proof (digits_bounds m) as [Hlo Hhi].
    pose proof (Pos2Z.is_pos (digits2_pos m)).
    pose proof (digits_le (m * 4503599627370496) (digits m + 52) ltac:(lia)) as Hle.
    pose proof (digits_gt (m * 4503599627370496) (digits m + 52 - 1)) as Hgt.
    rewrite Hm in Hle, Hgt.
    replace (digits m + 52 - 1) with (digits m - 1 + 52) in Hgt by lia.
    rewrite !Z.pow_add_r in Hle, Hgt by lia. lia. }
  rewrite Hd, fexp_unfold.
  replace (Z.max (digits m + 52 + (e + -52) - 53) emin - (e + -52)) with 52 by lia.
  cbn [shr]. rewrite Hm, iter_shr_1_exact by lia.
  cbn [shr_m loc_of_shr_record round_nearest_even Zdigits2 shr_record_of_loc].
  rewrite fexp_unfold.
  replace (Z.max (digits m + (e + -52 + 52) - 53) emin - (e + -52 + 52)) with 0 by lia.
  cbn [shr shr_m].
  destruct (Z.leb_spec (e + -52 + 52) (1024 - 53)); [|lia].
  f_equal. lia.
Qed.

Lemma fmul_one s k x : below s k x → fmul x lit_1_0 = x.
Proof.
  destruct x as [s'| | |s' m e]; cbn [below]; try done.
  - intros _. unfold fmul, lit_1_0. cbn [SFmul]. by rewrite xorb_false_r.
  - intros (_ & Hb & _). by apply fmul_one_finite.
Qed.

(** A draw of [random.random()] is a non-negative double below [1.0]. *)
Lemma unit_draw_below r : unit_draw r = true → below false 0 r.
Proof.
  unfold unit_draw, valid. intros [Hv Hr]%andb_prop.
  destruct r as [[|]| | |[|] m e]; try discriminate Hr; [reflexivity|].
  cbn [below]. cbn [valid_binary] in Hv.
  split; [reflexivity|]. split; [exact Hv|].
  apply bounded_elim in Hv as [Hc He].
  unfold SFltb, lit_1_0 in Hr. cbn [SFcompare] in Hr.
  destruct (Z.compare_spec e (-52)) as [->|Hlt|Hgt]; [| |discriminate Hr].
  - assert (digits m = 53) as Hd by lia.
    pose proof (digits_bounds m) as [Hlo _]. rewrite Hd in Hlo.
    change (2 ^ (53 - 1)) with 4503599627370496 in Hlo.
    destruct (Pos.compare_cont Eq m 4503599627370496) eqn:Ecmp; try discriminate Hr.
    assert (Z.pos m < 4503599627370496) as Hm by exact Ecmp.
    clear Ecmp. lia.
  - lia.
Qed.

End Binary64Exact.

(** * The expressions of the loop *)

#[local] Set Warnings "-inexact-float".

(** The literals are the doubles that the decimal notation denotes, as the
    kernel's binary64 numbers read them. *)
Lemma literals_as_binary64 :
  Prim2SF 0.05%float = lit_0_05
  ∧ Prim2SF 0.8%float = lit_0_8
  ∧ Prim2SF 0.4%float = lit_0_4
  ∧ Prim2SF 1.0%float = lit_1_0
  ∧ Prim2SF 0.5%float = lit_0_5.
Proof. repeat apply conj; vm_compute; reflexivity. Qed.

(** The arithmetic of the model and the kernel's binary64 arithmetic agree
    on the growth factor and on the pinned value of the last back-index. *)
Lemma growth_factor_12_as_binary64 :
  growth_factor_at 12 = Ok (Prim2SF (1 - 12 * 0.05)%float)
  ∧ int_mul_float 1000 (Prim2SF (1 - 12 * 0.05)%float)
    = Ok (Prim2SF (1000 * (1 - 12 * 0.05))%float).
Proof. repeat apply conj; vm_compute; reflexivity. Qed.

Lemma binary_round_aux_sign s m e l :
  match binary_round_aux 53 1024 s m e l with
  | S754_zero s' | S754_infinity s' | S754_finite s' _ _ => s' = s
  | S754_nan => True
  end.
Proof.
  unfold binary_round_aux.
  destruct (shr_fexp 53 1024 m e l) as [mrs1 e1].
  destruct (shr_fexp 53 1024 _ e1 loc_Exact) as [mrs2 e2].
  destruct (shr_m mrs2); [done| |done]. by destruct (_ <=? _).
Qed.

Lemma not_negative_round_aux m e l : not_negative (binary_round_aux 53 1024 false m e l).
Proof.
  pose proof (binary_round_aux_sign false m e l) as H.
  by destruct (binary_round_aux 53 1024 false m e l).
Qed.

Lemma not_negative_fmul x y : not_negative x → not_negative y → not_negative (fmul x y).
Proof.
  destruct x as [sx|sx| |sx mx ex], y as [sy|sy| |sy my ey]; cbn [not_negative];
    try done; unfold fmul; cbn [SFmul not_negative]; try (by intros -> ->); try done.
  intros -> ->. apply not_negative_round_aux.
Qed.

Lemma not_negative_float_of_int n f : 0 ≤ n → float_of_int n = Ok f → not_negative f.
Proof.
  intros Hn. unfold float_of_int.
  destruct n as [|p|p]; [| |lia]; cbn [binary_normalize].
  - by intros [= <-].
  - unfold binary_round. destruct (shl_align _ _ _) as [mz ez].
    pose proof (not_negative_round_aux (Z.pos mz) ez loc_Exact) as H.
    destruct (binary_round_aux _ _ _ _ _ _); try done; by intros [= <-].
Qed.

Lemma not_negative_below k x : below false k x → not_negative x.
Proof. destruct x; cbn [below not_negative]; try done. by intros (-> & _). Qed.

Lemma int_of_float_not_negative x v : not_negative x → int_of_float x = Ok v → 0 ≤ v.
Proof.
  destruct x as [s|s| |s m e]; cbn [not_negative int_of_float]; try done.
  - intros _ [= <-]. lia.
  - intros -> [= <-]. apply Z.shiftl_nonneg. lia.
Qed.

Lemma lit_0_05_below : below false (-4) lit_0_05.
Proof. cbn [below lit_0_05]. repeat split. vm_compute. discriminate. Qed.

Lemma lit_0_4_below : below false (-1) lit_0_4.
Proof. cbn [below lit_0_4]. repeat split. vm_compute. discriminate. Qed.

Lemma lit_0_8_below : below false 0 lit_0_8.
Proof. cbn [below lit_0_8]. repeat split. vm_compute. discriminate. Qed.

(** The variation factor of a draw is a positive double below 4. *)
Lemma random_variation_below r :
  unit_draw r = true → below false 2 (random_variation_of r).
Proof.
  intros Hr%unit_draw_below. unfold random_variation_of.
  pose proof (fmul_below false false 0 (-1) 0 _ _ Hr lit_0_4_below
                ltac:(lia) ltac:(lia) ltac:(lia)) as Hm.
  destruct (fadd_below false false 0 0 2 _ _ lit_0_8_below Hm
              ltac:(lia) ltac:(lia) ltac:(lia)) as (s & Hs & Hsign).
  by rewrite (Hsign eq_refl eq_refl) in Hs.
Qed.

(** The growth factor of an iteration within reach of the calendar. *)
Lemma growth_factor_below i :
  0 ≤ i < 2 ^ 17 → ∃ gf s, growth_factor_at i = Ok gf ∧ below s 17 gf.
Proof.
  intros Hi. unfold growth_factor_at, int_mul_float, int_sub_float.
  destruct (float_of_int_below i 17 ltac:(lia) ltac:(lia)) as (f & -> & Hf).
  cbn [mbind result_bind].
  pose proof (fmul_below _ false 18 (-4) 15 _ _ Hf lit_0_05_below
                ltac:(lia) ltac:(lia) ltac:(lia)) as Hx.
  destruct (float_of_int_below 1 1 ltac:(lia) ltac:(lia)) as (one & -> & Hone).
  cbn [mbind result_bind].
  destruct (fsub_below _ _ 2 15 17 _ _ Hone Hx ltac:(lia) ltac:(lia) ltac:(lia)) as (s & Hs).
  eauto.
Qed.

(** [int(current * growth_factor * random_variation)] succeeds when the
    total has fewer than a thousand bits. *)
Lemma scaled_total current gf rv s :
  Z.abs current < 2 ^ 1000 → below s 17 gf → below false 2 rv →
  ∃ v, scaled current gf rv = Ok v.
Proof.
  intros Hc Hgf Hrv. unfold scaled, int_mul_float.
  destruct (float_of_int_below current 1000 ltac:(lia) Hc) as (f & -> & Hf).
  cbn [mbind result_bind].
  pose proof (fmul_below _ _ 1001 17 1019 _ _ Hf Hgf ltac:(lia) ltac:(lia) ltac:(lia)) as Hx.
  pose proof (fmul_below _ _ 1019 2 1022 _ _ Hx Hrv ltac:(lia) ltac:(lia) ltac:(lia)) as Hy.
  destruct (int_of_float_below _ _ _ Hy) as (v & -> & _). eauto.
Qed.

(** With the variation at [1.0] the last product changes nothing. *)
Lemma scaled_pinned current gf s :
  Z.abs current < 2 ^ 1000 → below s 17 gf →
  scaled current gf lit_1_0 = (f ← float_of_int current; int_of_float (fmul f gf)).
Proof.
  intros Hc Hgf. unfold scaled, int_mul_float.
  destruct (float_of_int_below current 1000 ltac:(lia) Hc) as (f & -> & Hf).
  cbn [mbind result_bind].
  pose proof (fmul_below _ _ 1001 17 1019 _ _ Hf Hgf ltac:(lia) ltac:(lia) ltac:(lia)) as Hx.
  by rewrite (fmul_one _ _ _ Hx).
Qed.

Lemma random_variation_pinned : random_variation_of lit_0_5 = lit_1_0.
Proof. vm_compute. reflexivity. Qed.

(** The twelve growth factors of the shipped configuration are positive
    doubles below [1.0]. *)
Lemma growth_factor_shipped i :
  1 ≤ i ≤ config.HISTORICAL_MONTHS →
  ∃ m e, growth_factor_at i = Ok (S754_finite false m e)
         ∧ SFltb (S754_finite false m e) lit_1_0 = true.
Proof.
  unfold config.HISTORICAL_MONTHS. intros Hi.
  assert (i = 1 ∨ i = 2 ∨ i = 3 ∨ i = 4 ∨ i = 5 ∨ i = 6 ∨ i = 7 ∨ i = 8 ∨ i = 9
          ∨ i = 10 ∨ i = 11 ∨ i = 12) as Hcases by lia.
  repeat (destruct Hcases as [->|Hcases]); [..|subst i];
    do 2 eexists; (split; [vm_compute; reflexivity|]); vm_compute; reflexivity.
Qed.

(** ** Properties of a single point *)

Lemma days_before_ok now n :
  0 ≤ n → n < ordinal now ≤ max_ordinal →
  days_before now n
  = Ok {| ordinal := ordinal now - n; microsecond_of_day := microsecond_of_day now |}.
Proof.
  intros Hn Hnow. unfold days_before, timedelta_days, datetime_sub, max_ordinal in *.
  destruct (Z.leb_spec (Z.abs n) 999999999); [|lia]. cbn [mbind result_bind].
  destruct (Z.leb_spec 1 (ordinal now - n)); [|lia].
  destruct (Z.leb_spec (ordinal now - n) 3652059); [|lia]. reflexivity.
Qed.

Lemma days_before_inv now n d :
  days_before now n = Ok d → ordinal d = ordinal now - n ∧ 1 ≤ ordinal d.
Proof.
  unfold days_before, timedelta_days, datetime_sub.
  destruct (_ <=? _); cbn [mbind result_bind]; [|discriminate].
  destruct (Z.leb_spec 1 (ordinal now - n)); cbn [andb]; [|discriminate].
  destruct (_ <=? _); [|discriminate]. intros [= <-]. cbn. lia.
Qed.

(** The date of a point is the day of the clock's reading, [30 * i] days
    earlier. *)
Lemma point_date current i now r p :
  point current i now r = Ok p → date p = ordinal now - 30 * i ∧ 1 ≤ date p.
Proof.
  unfold point. destruct (days_before now (30 * i)) as [d|] eqn:Ed; [|discriminate].
  apply days_before_inv in Ed. cbn [mbind result_bind].
  destruct (growth_factor_at i); cbn [mbind result_bind]; [|discriminate].
  destruct (scaled _ _ _); cbn [mbind result_bind]; [|discriminate].
  intros [= <-]. cbn. unfold strftime_Ymd. lia.
Qed.

Lemma point_total current i now r :
  1 ≤ i → 30 * i < ordinal now ≤ max_ordinal →
  Z.abs current < 2 ^ 1000 → unit_draw r = true →
  is_ok (point current i now r) = true.
Proof.
  intros Hi Hnow Hc Hr. unfold point.
  rewrite days_before_ok by lia. cbn [mbind result_bind].
  assert (i < 2 ^ 17) by (unfold max_ordinal in Hnow; lia).
  destruct (growth_factor_below i ltac:(lia)) as (gf & s & -> & Hgf).
  cbn [mbind result_bind].
  destruct (scaled_total current gf _ s Hc Hgf (random_variation_below r Hr)) as (v & ->).
  reflexivity.
Qed.

(** A non-negative total gives a non-negative value in the shipped
    configuration. *)
Lemma point_not_negative current i now r p :
  0 ≤ current → 1 ≤ i ≤ config.HISTORICAL_MONTHS → unit_draw r = true →
  point current i now r = Ok p → 0 ≤ value p.
Proof.
  intros Hc Hi Hr. unfold point.
  destruct (days_before now (30 * i)); cbn [mbind result_bind]; [|discriminate].
  destruct (growth_factor_shipped i Hi) as (m & e & -> & _). cbn [mbind result_bind].
  unfold scaled, int_mul_float.
  destruct (float_of_int current) as [f|] eqn:Ef; cbn [mbind result_bind]; [|discriminate].
  destruct (int_of_float _) as [v|] eqn:Ev; cbn [mbind result_bind]; [|discriminate].
  intros [= <-]. cbn [value]. eapply int_of_float_not_negative; [|exact Ev].
  apply not_negative_fmul.
  - apply not_negative_fmul; [by eapply not_negative_float_of_int|done].
  - eapply not_negative_below, random_variation_below, Hr.
Qed.

(** The value of a point when the draw is [0.5]. *)
Lemma point_pinned current i now p :
  Z.abs current < 2 ^ 1000 → 0 ≤ i < 2 ^ 17 →
  point current i now lit_0_5 = Ok p →
  ∃ f gf, float_of_int current = Ok f ∧ growth_factor_at i = Ok gf
          ∧ int_of_float (fmul f gf) = Ok (value p).
Proof.
  intros Hc Hi. unfold point.
  destruct (days_before now (30 * i)); cbn [mbind result_bind]; [|discriminate].
  destruct (growth_factor_below i Hi) as (gf & s & -> & Hgf). cbn [mbind result_bind].
  rewrite random_variation_pinned, (scaled_pinned _ _ _ Hc Hgf).
  destruct (float_of_int current) as [f|]; cbn [mbind result_bind]; [|discriminate].
  destruct (int_of_float (fmul f gf)) as [v|] eqn:Ev; cbn [mbind result_bind]; [|discriminate].
  intros [= <-]. eauto.
Qed.

(** * Properties of the history synthesizer *)

Section Synthesizer.
Context {S : Type}.
Variable clock : nat → datetime.
Variable random : nat → float.

#[local] Abbreviation step := (history_step (S:=S) clock random).

Lemma advance_by_0 (w : World S) : advance_by 0 w = w.
Proof. destruct w. unfold advance_by. cbn. by rewrite !Nat.add_0_r. Qed.

Lemma advance_by_S n (w : World S) :
  advance_by n (advance_by 1 w) = advance_by (Datatypes.S n) w.
Proof. unfold advance_by. cbn. f_equal; lia. Qed.

(** One iteration succeeds exactly when its three points do. *)
Lemma history_step_ok cs cv cn h i w a b c :
  point cs i (clock (clock_reads w)) (random (random_draws w)) = Ok a →
  point cv i (clock (clock_reads w)) (random (random_draws w)) = Ok b →
  point cn i (clock (clock_reads w)) (random (random_draws w)) = Ok c →
  step cs cv cn h i w = (Ok (append_points h a b c), advance_by 1 w).
Proof.
  unfold point, history_step, datetime_now, random_random, lift, mbind, Py_bind, mret, Py_ret.
  cbn [clock_reads random_draws transport calls].
  destruct (days_before _ _) as [date|e]; cbn [result_bind]; [|discriminate].
  destruct (growth_factor_at i) as [gf|e]; cbn [result_bind]; [|discriminate].
  destruct (scaled cs gf _) as [vs|e]; cbn [result_bind]; [|discriminate].
  destruct (scaled cv gf _) as [vv|e]; cbn [result_bind]; [|discriminate].
  destruct (scaled cn gf _) as [vn|e]; cbn [result_bind]; [|discriminate].
  intros [= <-] [= <-] [= <-]. unfold append_points, advance_by. cbn.
  repeat f_equal; lia.
Qed.

Lemma history_step_inv cs cv cn h i w h' w' :
  step cs cv cn h i w = (Ok h', w') →
  ∃ a b c,
    point cs i (clock (clock_reads w)) (random (random_draws w)) = Ok a
    ∧ point cv i (clock (clock_reads w)) (random (random_draws w)) = Ok b
    ∧ point cn i (clock (clock_reads w)) (random (random_draws w)) = Ok c
    ∧ h' = append_points h a b c ∧ w' = advance_by 1 w.
Proof.
  unfold point, history_step, datetime_now, random_random, lift, mbind, Py_bind, mret, Py_ret.
  cbn [clock_reads random_draws transport calls].
  destruct (days_before _ _) as [date|e]; cbn [result_bind]; [|discriminate].
  destruct (growth_factor_at i) as [gf|e]; cbn [result_bind]; [|discriminate].
  destruct (scaled cs gf _) as [vs|e]; cbn [result_bind]; [|discriminate].
  destruct (scaled cv gf _) as [vv|e]; cbn [result_bind]; [|discriminate].
  destruct (scaled cn gf _) as [vn|e]; cbn [result_bind]; [|discriminate].
  intros [= <- <-]. do 3 eexists. repeat split.
  unfold advance_by. cbn. repeat f_equal; lia.
Qed.

(** The loop: every iteration reads the clock once and draws once, and
    appends to each list the point of its own total. *)
Lemma for_each_history_inv cs cv cn l h0 w h w' :
  for_each (step cs cv cn) l h0 w = (Ok h, w') →
  w' = advance_by (length l) w
  ∧ ∃ ps pv pn,
      subscriber_history h = subscriber_history h0 ++ ps
      ∧ view_history h = view_history h0 ++ pv
      ∧ video_history h = video_history h0 ++ pn
      ∧ length ps = length l ∧ length pv = length l ∧ length pn = length l
      ∧ ∀ k i, l !! k = Some i →
          ∃ a b c,
            ps !! k = Some a ∧ pv !! k = Some b ∧ pn !! k = Some c
            ∧ point cs i (clock (clock_reads w + k)) (random (random_draws w + k)) = Ok a
            ∧ point cv i (clock (clock_reads w + k)) (random (random_draws w + k)) = Ok b
            ∧ point cn i (clock (clock_reads w + k)) (random (random_draws w + k)) = Ok c.
Proof.
  revert h0 w. induction l as [|i l IH]; intros h0 w; cbn [for_each].
  - intros [= <- <-]. split; [by rewrite advance_by_0|].
    exists [], [], []. rewrite !app_nil_r. repeat split. intros k i Hk. done.
  - unfold mbind, Py_bind.
    destruct (step cs cv cn h0 i w) as [[h1|e] w1] eqn:E1; [|discriminate].
    apply history_step_inv in E1 as (a & b & c & Ha & Hb & Hc & -> & ->).
    intros (-> & ps & pv & pn & Hs & Hv & Hn & Ls & Lv & Ln & Hk)%IH.
    split; [by rewrite advance_by_S|].
    exists (a :: ps), (b :: pv), (c :: pn).
    cbn [append_points subscriber_history view_history video_history] in Hs, Hv, Hn.
    rewrite <- !app_assoc in Hs, Hv, Hn.
    repeat split; try done; cbn [length]; try congruence.
    intros [|k] j Hj.
    + cbn in Hj. injection Hj as <-. exists a, b, c. rewrite !Nat.add_0_r. done.
    + cbn in Hj. destruct (Hk k j Hj) as (a' & b' & c' & ? & ? & ? & Ha' & Hb' & Hc').
      exists a', b', c'. cbn [advance_by clock_reads random_draws] in Ha', Hb', Hc'.
      replace (clock_reads w + Datatypes.S k)%nat with (clock_reads w + 1 + k)%nat by lia.
      replace (random_draws w + Datatypes.S k)%nat with (random_draws w + 1 + k)%nat by lia.
      done.
Qed.

Lemma for_each_history_total cs cv cn l h0 w :
  (∀ k i, l !! k = Some i →
     is_ok (point cs i (clock (clock_reads w + k)) (random (random_draws w + k))) = true
     ∧ is_ok (point cv i (clock (clock_reads w + k)) (random (random_draws w + k))) = true
     ∧ is_ok (point cn i (clock (clock_reads w + k)) (random (random_draws w + k))) = true) →
  ∃ h w', for_each (step cs cv cn) l h0 w = (Ok h, w').
Proof.
  revert h0 w. induction l as [|i l IH]; intros h0 w Hok; cbn [for_each].
  - by eexists _, _.
  - destruct (Hok 0%nat i eq_refl) as (Ha & Hb & Hc). rewrite !Nat.add_0_r in Ha, Hb, Hc.
    destruct (point cs i _ _) as [a|] eqn:Ea; [|discriminate].
    destruct (point cv i _ _) as [b|] eqn:Eb; [|discriminate].
    destruct (point cn i _ _) as [c|] eqn:Ec; [|discriminate].
    unfold mbind, Py_bind. rewrite (history_step_ok _ _ _ _ _ _ _ _ _ Ea Eb Ec).
    apply IH. intros k j Hj. cbn [advance_by clock_reads random_draws].
    specialize (Hok (Datatypes.S k) j Hj).
    replace (clock_reads w + 1 + k)%nat with (clock_reads w + Datatypes.S k)%nat by lia.
    replace (random_draws w + 1 + k)%nat with (random_draws w + Datatypes.S k)%nat by lia.
    done.
Qed.

Lemma range_down_lookup M (k : nat) :
  (k < Z.to_nat M)%nat → range_down M !! k = Some (M - Z.of_nat k).
Proof.
  intros Hk. unfold range_down. rewrite list_lookup_fmap, lookup_seq_lt by done. done.
Qed.

Lemma range_down_lookup_inv M (k : nat) i :
  range_down M !! k = Some i → (k < Z.to_nat M)%nat ∧ i = M - Z.of_nat k.
Proof.
  unfold range_down. rewrite list_lookup_fmap. intros Hk.
  destruct (seq 0 (Z.to_nat M) !! k) as [j|] eqn:Ej; [|done].
  apply lookup_seq in Ej as [-> ?]. cbn in Hk. injection Hk as <-. done.
Qed.

Lemma length_range_down M : length (range_down M) = Z.to_nat M.
Proof. unfold range_down. by rewrite length_fmap, length_seq. Qed.

(** What [generate_historical_data] returns: [HISTORICAL_MONTHS] points
    per list; the point at position [k] of each list is the one of
    iteration [i = HISTORICAL_MONTHS - k], of the k-th read of the clock
    and of the k-th draw. *)
Lemma generate_historical_data_inv M ch (w : World S) h w' :
  generate_historical_data clock random M ch w = (Ok h, w') →
  w' = advance_by (Z.to_nat M) w
  ∧ length (subscriber_history h) = Z.to_nat M
  ∧ length (view_history h) = Z.to_nat M
  ∧ length (video_history h) = Z.to_nat M
  ∧ ∀ k : nat, (k < Z.to_nat M)%nat →
      ∃ a b c,
        subscriber_history h !! k = Some a
        ∧ view_history h !! k = Some b
        ∧ video_history h !! k = Some c
        ∧ point (Channel.subscriber_count ch) (M - Z.of_nat k)
            (clock (clock_reads w + k)) (random (random_draws w + k)) = Ok a
        ∧ point (Channel.view_count ch) (M - Z.of_nat k)
            (clock (clock_reads w + k)) (random (random_draws w + k)) = Ok b
        ∧ point (Channel.video_count ch) (M - Z.of_nat k)
            (clock (clock_reads w + k)) (random (random_draws w + k)) = Ok c.
Proof.
  unfold generate_historical_data.
  intros (-> & ps & pv & pn & Hs & Hv & Hn & Ls & Lv & Ln & Hk)%for_each_history_inv.
  cbn [no_history subscriber_history view_history video_history app] in Hs, Hv, Hn.
  subst ps pv pn. rewrite length_range_down in Ls, Lv, Ln.
  split; [by rewrite length_range_down|]. do 3 (split; [done|]).
  intros k Hlt. apply Hk. by apply range_down_lookup.
Qed.

Lemma generate_historical_data_total M ch (w : World S) :
  (∀ k : nat, (k < Z.to_nat M)%nat →
     ∀ current,
       current ∈ [Channel.subscriber_count ch; Channel.view_count ch;
                  Channel.video_count ch] →
       is_ok (point current (M - Z.of_nat k)
                (clock (clock_reads w + k)) (random (random_draws w + k))) = true) →
  ∃ h w', generate_historical_data clock random M ch w = (Ok h, w').
Proof.
  intros Hok. unfold generate_historical_data. apply for_each_history_total.
  intros k i [Hk ->]%range_down_lookup_inv.
  repeat split; apply Hok; try done; set_solver.
Qed.

(** The dates of the three lists are those of the reads of the clock. *)
Lemma generate_historical_data_dates M ch (w : World S) h w' :
  generate_historical_data clock random M ch w = (Ok h, w') →
  let expected :=
    (fun k : nat => ordinal (clock (clock_reads w + k)) - 30 * (M - Z.of_nat k))
      <$> seq 0 (Z.to_nat M) in
  date <$> subscriber_history h = expected
  ∧ date <$> view_history h = expected
  ∧ date <$> video_history h = expected.
Proof.
  intros (_ & Ls & Lv & Ln & Hk)%generate_historical_data_inv expected.
  assert (∀ l (pick : Z),
            length l = Z.to_nat M →
            (∀ k : nat, (k < Z.to_nat M)%nat →
               ∃ a, l !! k = Some a
                    ∧ date a = ordinal (clock (clock_reads w + k)) - 30 * (M - Z.of_nat k)) →
            date <$> l = expected) as Hlist.
  { intros l _ Hlen Hl. apply list_eq. intros k. subst expected.
    rewrite !list_lookup_fmap.
    destruct (decide (k < Z.to_nat M)%nat) as [Hlt|Hge].
    - destruct (Hl k Hlt) as (a & Ha & Hd). rewrite Ha, lookup_seq_lt by done.
      cbn. by rewrite Hd.
    - rewrite (lookup_ge_None_2 l), (lookup_ge_None_2 (seq _ _)); [done| |lia].
      rewrite length_seq. lia. }
  repeat split; apply Hlist; try done; try exact 0; intros k Hlt;
    destruct (Hk k Hlt) as (a & b & c & Ha & Hb & Hc & Pa & Pb & Pc);
    apply point_date in Pa as [Pa _], Pb as [Pb _], Pc as [Pc _]; eauto.
Qed.

(** When the totals have fewer than a thousand bits, every draw is in
    the unit interval and the clock stays within reach of the calendar,
    the synthesizer returns. *)
Lemma generate_historical_data_returns M ch (w : World S) :
  Z.abs (Channel.subscriber_count ch) < 2 ^ 1000 →
  Z.abs (Channel.view_count ch) < 2 ^ 1000 →
  Z.abs (Channel.video_count ch) < 2 ^ 1000 →
  (∀ n, unit_draw (random n) = true) →
  (∀ n, 30 * M < ordinal (clock n) ≤ max_ordinal) →
  ∃ h w', generate_historical_data clock random M ch w = (Ok h, w').
Proof.
  intros Hs Hv Hn Hr Hc. apply generate_historical_data_total.
  intros k Hk current Hcur. apply point_total; [lia| | |done].
  2: { rewrite !elem_of_cons in Hcur.
       destruct Hcur as [->|[->|[->|Hcur]]]; [done..|by apply elem_of_nil in Hcur]. }
  - specialize (Hc (clock_reads w + k)%nat). lia.
Qed.

(** C1, amended: each iteration draws once, and the one draw gives the
    variation factor of the subscribers, views and videos points of that
    iteration; after the call the source has been read
    [HISTORICAL_MONTHS] times. *)
Theorem variation_shared_across_metrics M ch (w : World S) h w' :
  generate_historical_data clock random M ch w = (Ok h, w') →
  random_draws w' = (random_draws w + Z.to_nat M)%nat
  ∧ ∀ k : nat, (k < Z.to_nat M)%nat →
      let r := random (random_draws w + k) in
      let now := clock (clock_reads w + k) in
      ∃ a b c,
        subscriber_history h !! k = Some a
        ∧ view_history h !! k = Some b
        ∧ video_history h !! k = Some c
        ∧ point (Channel.subscriber_count ch) (M - Z.of_nat k) now r = Ok a
        ∧ point (Channel.view_count ch) (M - Z.of_nat k) now r = Ok b
        ∧ point (Channel.video_count ch) (M - Z.of_nat k) now r = Ok c.
Proof.
  intros (-> & _ & _ & _ & Hk)%generate_historical_data_inv.
  split; [reflexivity|]. intros k Hlt r now. by apply Hk.
Qed.

(** C3, amended: for a positive [HISTORICAL_MONTHS], totals of fewer
    than a thousand bits and a clock that does not run backwards and
    stays within reach of the calendar, the synthesizer returns
    [HISTORICAL_MONTHS] points per metric; the three lists carry the same
    dates; consecutive dates are at least 30 days apart, and exactly 30
    when the two reads of the clock fall on the same day; the newest
    point is dated 30 days before the day of the last read. *)
Theorem history_dates M ch (w : World S) :
  1 ≤ M →
  0 ≤ Channel.subscriber_count ch < 2 ^ 1000 →
  0 ≤ Channel.view_count ch < 2 ^ 1000 →
  0 ≤ Channel.video_count ch < 2 ^ 1000 →
  (∀ n, unit_draw (random n) = true) →
  (∀ n, 30 * M < ordinal (clock n) ≤ max_ordinal) →
  (∀ n, ordinal (clock n) ≤ ordinal (clock (Datatypes.S n))) →
  ∃ h w',
    generate_historical_data clock random M ch w = (Ok h, w')
    ∧ length (subscriber_history h) = Z.to_nat M
    ∧ length (view_history h) = Z.to_nat M
    ∧ length (video_history h) = Z.to_nat M
    ∧ date <$> view_history h = date <$> subscriber_history h
    ∧ date <$> video_history h = date <$> subscriber_history h
    ∧ (∀ (k : nat) d d',
         (date <$> subscriber_history h) !! k = Some d →
         (date <$> subscriber_history h) !! Datatypes.S k = Some d' →
         d + 30 ≤ d'
         ∧ (ordinal (clock (clock_reads w + k))
            = ordinal (clock (clock_reads w + Datatypes.S k)) → d' = d + 30))
    ∧ (∀ d, last (date <$> subscriber_history h) = Some d →
         d + 30 = ordinal (clock (clock_reads w + (Z.to_nat M - 1)))).
Proof.
  intros HM Hs Hv Hn Hr Hc Hmono.
  destruct (generate_historical_data_returns M ch w) as (h & w' & Hrun);
    [lia..|done|done|].
  exists h, w'. split; [done|].
  pose proof (generate_historical_data_inv _ _ _ _ _ Hrun) as (_ & Ls & Lv & Ln & _).
  pose proof (generate_historical_data_dates _ _ _ _ _ Hrun) as (Ds & Dv & Dn).
  cbv zeta in Ds, Dv, Dn.
  do 3 (split; [done|]). rewrite Ds, Dv, Dn. do 2 (split; [done|]). split.
  - intros k d d'. rewrite !list_lookup_fmap.
    destruct (seq 0 (Z.to_nat M) !! k) as [j|] eqn:Ej; [|done].
    destruct (seq 0 (Z.to_nat M) !! Datatypes.S k) as [j'|] eqn:Ej'; [|done].
    apply lookup_seq in Ej as [-> ?], Ej' as [-> ?]. cbn.
    intros [= <-] [= <-].
    specialize (Hmono (clock_reads w + k)%nat).
    replace (clock_reads w + Datatypes.S k)%nat with (Datatypes.S (clock_reads w + k)) by lia.
    lia.
  - intros d. rewrite fmap_last.
    assert (Z.to_nat M = Datatypes.S (Z.to_nat M - 1)) as -> by lia.
    rewrite seq_S, last_snoc. cbn. intros [= <-].
    rewrite ?Nat.sub_0_r. lia.
Qed.

(** C4, amended: with every draw at [0.5], which makes the variation
    factor [1.0], the value at back-index [i] of each metric is
    [int(current * growth_factor)], the truncation of the binary64
    product of the total and of [1 - i * 0.05] as a double. *)
Theorem pinned_values M ch (w : World S) :
  (∀ n, random n = lit_0_5) →
  0 ≤ Channel.subscriber_count ch < 2 ^ 1000 →
  0 ≤ Channel.view_count ch < 2 ^ 1000 →
  0 ≤ Channel.video_count ch < 2 ^ 1000 →
  (∀ n, 30 * M < ordinal (clock n) ≤ max_ordinal) →
  random_variation_of lit_0_5 = lit_1_0
  ∧ ∃ h w',
      generate_historical_data clock random M ch w = (Ok h, w')
      ∧ ∀ k : nat, (k < Z.to_nat M)%nat →
          ∃ a b c gf,
            subscriber_history h !! k = Some a
            ∧ view_history h !! k = Some b
            ∧ video_history h !! k = Some c
            ∧ growth_factor_at (M - Z.of_nat k) = Ok gf
            ∧ (f ← float_of_int (Channel.subscriber_count ch); int_of_float (fmul f gf))
              = Ok (value a)
            ∧ (f ← float_of_int (Channel.view_count ch); int_of_float (fmul f gf))
              = Ok (value b)
            ∧ (f ← float_of_int (Channel.video_count ch); int_of_float (fmul f gf))
              = Ok (value c).
Proof.
  intros Hpin Hs Hv Hn Hc. split; [apply random_variation_pinned|].
  destruct (generate_historical_data_returns M ch w) as (h & w' & Hrun); [lia..| |done|].
  { intros n. by rewrite Hpin. }
  exists h, w'. split; [done|].
  pose proof (generate_historical_data_inv _ _ _ _ _ Hrun) as (_ & _ & _ & _ & Hk).
  intros k Hlt. destruct (Hk k Hlt) as (a & b & c & Ha & Hb & Hc' & Pa & Pb & Pc).
  rewrite Hpin in Pa, Pb, Pc.
  assert (0 ≤ M - Z.of_nat k < 2 ^ 17) as Hi.
  { specialize (Hc 0%nat). unfold max_ordinal in Hc. lia. }
  apply point_pinned in Pa as (fa & gf & Efa & Egf & Eva); [|lia|done].
  apply point_pinned in Pb as (fb & gf' & Efb & Egf' & Evb); [|lia|done].
  apply point_pinned in Pc as (fc & gf'' & Efc & Egf'' & Evc); [|lia|done].
  rewrite Egf in Egf', Egf''. injection Egf' as <-. injection Egf'' as <-.
  exists a, b, c, gf. rewrite Efa, Efb, Efc. cbn [mbind result_bind]. done.
Qed.

(** C10: in the shipped configuration, non-negative totals give
    non-negative values in the three lists, whatever is drawn from the
    unit interval: the twelve growth factors are positive doubles below
    [1.0] and the variation factor is not negative.  For totals of fewer
    than a thousand bits the lists are indeed returned. *)
Theorem shipped_values_not_negative ch (w : World S) :
  0 ≤ Channel.subscriber_count ch →
  0 ≤ Channel.view_count ch →
  0 ≤ Channel.video_count ch →
  (∀ n, unit_draw (random n) = true) →
  (∀ h w',
     generate_historical_data clock random config.HISTORICAL_MONTHS ch w = (Ok h, w') →
     ∀ p, p ∈ subscriber_history h ++ view_history h ++ video_history h → 0 ≤ value p)
  ∧ (∀ i, 1 ≤ i ≤ config.HISTORICAL_MONTHS →
       ∃ m e, growth_factor_at i = Ok (S754_finite false m e)
              ∧ SFltb (S754_finite false m e) lit_1_0 = true)
  ∧ (∀ n, not_negative (random_variation_of (random n)))
  ∧ (Channel.subscriber_count ch < 2 ^ 1000 →
     Channel.view_count ch < 2 ^ 1000 →
     Channel.video_count ch < 2 ^ 1000 →
     (∀ n, 30 * config.HISTORICAL_MONTHS < ordinal (clock n) ≤ max_ordinal) →
     ∃ h w',
       generate_historical_data clock random config.HISTORICAL_MONTHS ch w = (Ok h, w')).
Proof.
  intros Hs Hv Hn Hr. split; [|split; [|split]].
  - intros h w' Hrun p Hp.
    pose proof (generate_historical_data_inv _ _ _ _ _ Hrun) as (_ & Ls & Lv & Ln & Hk).
    rewrite !elem_of_app in Hp.
    destruct Hp as [Hp|[Hp|Hp]]; apply list_elem_of_lookup in Hp as [k Hp];
      pose proof (lookup_lt_Some _ _ _ Hp) as Hlt; rewrite ?Ls, ?Lv, ?Ln in Hlt;
      destruct (Hk k Hlt) as (a & b & c & Ha & Hb & Hc & Pa & Pb & Pc);
      [rewrite Ha in Hp; injection Hp as <-;
       refine (point_not_negative _ _ _ _ _ Hs _ (Hr _) Pa)
      |rewrite Hb in Hp; injection Hp as <-;
       refine (point_not_negative _ _ _ _ _ Hv _ (Hr _) Pb)
      |rewrite Hc in Hp; injection Hp as <-;
       refine (point_not_negative _ _ _ _ _ Hn _ (Hr _) Pc)];
      unfold config.HISTORICAL_MONTHS in *; lia.
  - apply growth_factor_shipped.
  - intros n. eapply not_negative_below, random_variation_below, Hr.
  - intros Hs' Hv' Hn' Hc. apply generate_historical_data_returns; try done; lia.
Qed.
End Synthesizer.

Lemma variation_shared_across_metrics_witness :
  random_draws (advance_by 2 (new_world ())) = (random_draws (new_world ()) + Z.to_nat 2)%nat
  ∧ ∀ k : nat, (k < Z.to_nat 2)%nat →
      let r := alternating_random (random_draws (new_world ()) + k) in
      let now := still_clock (clock_reads (new_world ()) + k) in
      ∃ a b c,
        subscriber_history alternating_history !! k = Some a
        ∧ view_history alternating_history !! k = Some b
        ∧ video_history alternating_history !! k = Some c
        ∧ point (Channel.subscriber_count (totals 1000 1000 1000)) (2 - Z.of_nat k) now r = Ok a
        ∧ point (Channel.view_count (totals 1000 1000 1000)) (2 - Z.of_nat k) now r = Ok b
        ∧ point (Channel.video_count (totals 1000 1000 1000)) (2 - Z.of_nat k) now r = Ok c.
Proof.
  apply (variation_shared_across_metrics still_clock alternating_random 2
           (totals 1000 1000 1000) (new_world ()) alternating_history
           (advance_by 2 (new_world ()))).
  vm_compute. reflexivity.
Defined.

(** C1, as stated, fails: with draws [0.0], [0.5], [0.0], [0.5], ... and
    equal totals, the code gives the views the values of the subscribers
    and reads the source twice, while a synthesizer that draws anew for
    each metric gives the views other values and reads the source six
    times. *)
Lemma variation_drawn_once_per_point :
  ∃ h w h' w',
    generate_historical_data still_clock alternating_random 2
      (totals 1000 1000 1000) (new_world ()) = (Ok h, w)
    ∧ synthesize_independent still_clock alternating_random 2
        (totals 1000 1000 1000) (new_world ()) = (Ok h', w')
    ∧ value <$> subscriber_history h = [720; 950]
    ∧ value <$> view_history h = [720; 950]
    ∧ value <$> view_history h' = [900; 760]
    ∧ random_draws w = 2%nat
    ∧ random_draws w' = 6%nat.
Proof. do 4 eexists. repeat apply conj; vm_compute; reflexivity. Qed.

Lemma history_dates_witness :
  ∃ h w',
    generate_historical_data still_clock pinned_random 12 (totals 1000 10000 10)
      (new_world ()) = (Ok h, w')
    ∧ length (subscriber_history h) = Z.to_nat 12
    ∧ length (view_history h) = Z.to_nat 12
    ∧ length (video_history h) = Z.to_nat 12
    ∧ date <$> view_history h = date <$> subscriber_history h
    ∧ date <$> video_history h = date <$> subscriber_history h
    ∧ (∀ (k : nat) d d',
         (date <$> subscriber_history h) !! k = Some d →
         (date <$> subscriber_history h) !! Datatypes.S k = Some d' →
         d + 30 ≤ d'
         ∧ (ordinal (still_clock (clock_reads (new_world ()) + k))
            = ordinal (still_clock (clock_reads (new_world ()) + Datatypes.S k)) →
            d' = d + 30))
    ∧ (∀ d, last (date <$> subscriber_history h) = Some d →
         d + 30 = ordinal (still_clock (clock_reads (new_world ()) + (Z.to_nat 12 - 1)))).
Proof.
  apply (history_dates still_clock pinned_random 12 (totals 1000 10000 10) (new_world ())).
  - lia.
  - simpl. lia.
  - simpl. lia.
  - simpl. lia.
  - intros n. reflexivity.
  - intros n. unfold max_ordinal. simpl. lia.
  - intros n. simpl. lia.
Defined.

(** C3, as stated, fails when midnight passes between two reads of the
    clock: the two dates are 31 days apart. *)
Lemma dates_31_days_apart_across_midnight :
  ∃ h w',
    generate_historical_data midnight_clock pinned_random 2 (totals 1000 10000 10)
      (new_world ()) = (Ok h, w')
    ∧ date <$> subscriber_history h = [739192; 739223]
    ∧ date <$> view_history h = [739192; 739223]
    ∧ date <$> video_history h = [739192; 739223]
    ∧ 739223 - 739192 = 31
    ∧ datetime_leb (midnight_clock 0) (midnight_clock 1) = true.
Proof. do 2 eexists. repeat apply conj; vm_compute; reflexivity. Qed.

Lemma pinned_values_witness :
  random_variation_of lit_0_5 = lit_1_0
  ∧ ∃ h w',
      generate_historical_data still_clock pinned_random 12 (totals 1000 10000 10)
        (new_world ()) = (Ok h, w')
      ∧ ∀ k : nat, (k < Z.to_nat 12)%nat →
          ∃ a b c gf,
            subscriber_history h !! k = Some a
            ∧ view_history h !! k = Some b
            ∧ video_history h !! k = Some c
            ∧ growth_factor_at (12 - Z.of_nat k) = Ok gf
            ∧ (f ← float_of_int (Channel.subscriber_count (totals 1000 10000 10));
               int_of_float (fmul f gf)) = Ok (value a)
            ∧ (f ← float_of_int (Channel.view_count (totals 1000 10000 10));
               int_of_float (fmul f gf)) = Ok (value b)
            ∧ (f ← float_of_int (Channel.video_count (totals 1000 10000 10));
               int_of_float (fmul f gf)) = Ok (value c).
Proof.
  apply (pinned_values still_clock pinned_random 12 (totals 1000 10000 10) (new_world ())).
  - intros n. reflexivity.
  - simpl. lia.
  - simpl. lia.
  - simpl. lia.
  - intros n. unfold max_ordinal. simpl. lia.
Defined.

(** C4, as stated, fails in the shipped configuration: for a total of
    1000 and back-index 12 the code gives 399, because [1 - 12 * 0.05] is
    the double [0.39999999999999991], while [floor(1000 × (1 − 0.05×12))]
    is 400. *)
Lemma pinned_value_below_floor_formula :
  ∃ h w',
    random_variation_of (pinned_random 0) = lit_1_0
    ∧ generate_historical_data still_clock pinned_random 12 (totals 1000 10000 10)
        (new_world ()) = (Ok h, w')
    ∧ value <$> subscriber_history h !! 0%nat = Some 399
    ∧ floor_formula 1000 12 = 400
    ∧ growth_factor_at 12 = Ok (S754_finite false 7205759403792792 (-54)).
Proof. do 2 eexists. repeat apply conj; vm_compute; reflexivity. Qed.

Lemma shipped_values_not_negative_witness :
  (∀ h w',
     generate_historical_data still_clock pinned_random config.HISTORICAL_MONTHS
       (totals 1000 10000 10) (new_world ()) = (Ok h, w') →
     ∀ p, p ∈ subscriber_history h ++ view_history h ++ video_history h → 0 ≤ value p)
  ∧ (∀ i, 1 ≤ i ≤ config.HISTORICAL_MONTHS →
       ∃ m e, growth_factor_at i = Ok (S754_finite false m e)
              ∧ SFltb (S754_finite false m e) lit_1_0 = true)
  ∧ (∀ n, not_negative (random_variation_of (pinned_random n)))
  ∧ (Channel.subscriber_count (totals 1000 10000 10) < 2 ^ 1000 →
     Channel.view_count (totals 1000 10000 10) < 2 ^ 1000 →
     Channel.video_count (totals 1000 10000 10) < 2 ^ 1000 →
     (∀ n, 30 * config.HISTORICAL_MONTHS < ordinal (still_clock n) ≤ max_ordinal) →
     ∃ h w',
       generate_historical_data still_clock pinned_random config.HISTORICAL_MONTHS
         (totals 1000 10000 10) (new_world ()) = (Ok h, w')).
Proof.
  apply (shipped_values_not_negative still_clock pinned_random (totals 1000 10000 10)
           (new_world ())).
  - simpl. lia.
  - simpl. lia.
  - simpl. lia.
  - intros n. reflexivity.
Defined.

(** * Properties of the aggregator *)

Section Aggregator.
Context {S : Type}.
Variable execute : request → S → result (gmap string json) * S.
Variable clock : nat → datetime.
Variable random : nat → float.

#[local] Abbreviation stats := (get_comprehensive_stats execute clock random).

(** [get_comprehensive_stats] by cases on its three steps. *)
Lemma get_comprehensive_stats_cases M ident (w : World S) :
  match get_channel_info execute ident w with
  | (Raise e, w1) => stats M ident w = (Raise (wrapped e), w1)
  | (Ok ch, w1) =>
      match get_channel_videos execute (Channel.id ch) 50 w1 with
      | (Raise e, w2) => stats M ident w = (Raise (wrapped e), w2)
      | (Ok vs, w2) =>
          match generate_historical_data clock random M ch w2 with
          | (Raise e, w3) => stats M ident w = (Raise (wrapped e), w3)
          | (Ok h, w3) => stats M ident w = (Ok (bundle ch vs h), w3)
          end
      end
  end.
Proof.
  unfold get_comprehensive_stats, try_except, mbind, Py_bind, mret, Py_ret, raise.
  destruct (get_channel_info execute ident w) as [[ch|e] w1]; [|done].
  destruct (get_channel_videos execute (Channel.id ch) 50 w1) as [[vs|e] w2]; [|done].
  by destruct (generate_historical_data clock random M ch w2) as [[h|e] w3].
Qed.

(** C5, amended: a failure of the resolution or of the video fetch
    reaches the caller as a [ValueError] whose text is
    ["Error getting comprehensive stats: "] followed by the text of that
    failure, and no bundle is returned; when both succeed the bundle of
    the channel, the videos and the three histories is returned whenever
    the synthesizer returns, which it does for totals of fewer than a
    thousand bits; a failure of the synthesizer is wrapped in the same
    way. *)
Theorem stats_all_or_nothing M ident (w : World S) :
  (∀ n, unit_draw (random n) = true) →
  (∀ n, 30 * M < ordinal (clock n) ≤ max_ordinal) →
  match get_channel_info execute ident w with
  | (Raise e, w1) => stats M ident w = (Raise (wrapped e), w1)
  | (Ok ch, w1) =>
      match get_channel_videos execute (Channel.id ch) 50 w1 with
      | (Raise e, w2) => stats M ident w = (Raise (wrapped e), w2)
      | (Ok vs, w2) =>
          (∀ e w3, generate_historical_data clock random M ch w2 = (Raise e, w3) →
                   stats M ident w = (Raise (wrapped e), w3))
          ∧ (∀ h w3, generate_historical_data clock random M ch w2 = (Ok h, w3) →
                     stats M ident w = (Ok (bundle ch vs h), w3))
          ∧ (Z.abs (Channel.subscriber_count ch) < 2 ^ 1000 →
             Z.abs (Channel.view_count ch) < 2 ^ 1000 →
             Z.abs (Channel.video_count ch) < 2 ^ 1000 →
             ∃ h w3, stats M ident w = (Ok (bundle ch vs h), w3))
      end
  end.
Proof.
  intros Hr Hc. pose proof (get_comprehensive_stats_cases M ident w) as Hcases.
  destruct (get_channel_info execute ident w) as [[ch|e] w1]; [|done].
  destruct (get_channel_videos execute (Channel.id ch) 50 w1) as [[vs|e] w2]; [|done].
  split; [|split].
  - intros e w3 Hgen. by rewrite Hgen in Hcases.
  - intros h w3 Hgen. by rewrite Hgen in Hcases.
  - intros Hs Hv Hn.
    destruct (generate_historical_data_returns clock random M ch w2 Hs Hv Hn Hr Hc)
      as (h & w3 & Hgen).
    rewrite Hgen in Hcases. eauto.
Qed.
End Aggregator.

Lemma stats_all_or_nothing_witness :
  match get_channel_info no_uploads_platform "@google" (new_world ()) with
  | (Raise e, w1) =>
      get_comprehensive_stats no_uploads_platform still_clock pinned_random 12
        "@google" (new_world ()) = (Raise (wrapped e), w1)
  | (Ok ch, w1) =>
      match get_channel_videos no_uploads_platform (Channel.id ch) 50 w1 with
      | (Raise e, w2) =>
          get_comprehensive_stats no_uploads_platform still_clock pinned_random 12
            "@google" (new_world ()) = (Raise (wrapped e), w2)
      | (Ok vs, w2) =>
          (∀ e w3, generate_historical_data still_clock pinned_random 12 ch w2
                   = (Raise e, w3) →
                   get_comprehensive_stats no_uploads_platform still_clock pinned_random 12
                     "@google" (new_world ()) = (Raise (wrapped e), w3))
          ∧ (∀ h w3, generate_historical_data still_clock pinned_random 12 ch w2
                     = (Ok h, w3) →
                     get_comprehensive_stats no_uploads_platform still_clock pinned_random 12
                       "@google" (new_world ()) = (Ok (bundle ch vs h), w3))
          ∧ (Z.abs (Channel.subscriber_count ch) < 2 ^ 1000 →
             Z.abs (Channel.view_count ch) < 2 ^ 1000 →
             Z.abs (Channel.video_count ch) < 2 ^ 1000 →
             ∃ h w3,
               get_comprehensive_stats no_uploads_platform still_clock pinned_random 12
                 "@google" (new_world ()) = (Ok (bundle ch vs h), w3))
      end
  end.
Proof.
  apply (stats_all_or_nothing no_uploads_platform still_clock pinned_random 12 "@google"
           (new_world ())).
  - intros n. reflexivity.
  - intros n. unfold max_ordinal. simpl. lia.
Defined.

(** C5, as stated, fails: the failure of the resolution is a [ValueError]
    with one text, and what the caller of [get_comprehensive_stats]
    receives is a [ValueError] with another. *)
Lemma failure_is_wrapped_not_verbatim :
  ∃ e w1 e' w',
    get_channel_info empty_platform "@google" (new_world ()) = (Raise e, w1)
    ∧ get_comprehensive_stats empty_platform still_clock pinned_random 12 "@google"
        (new_world ()) = (Raise e', w')
    ∧ e = ValueError "Error fetching channel info: Channel 'google' not found. Please check the channel ID or username."
    ∧ e' = ValueError "Error getting comprehensive stats: Error fetching channel info: Channel 'google' not found. Please check the channel ID or username."
    ∧ e' ≠ e.
Proof.
  do 4 eexists. do 4 (apply conj; [vm_compute; reflexivity|]). discriminate.
Qed.
(** * Further properties of the resolver and of the fetcher *)

Section ResolverTiers.
Context {S : Type}.
Variable execute : request → S → result (gmap string json) * S.

Ltac run :=
  unfold try_except, execute_request, mbind, Py_bind, mret, Py_ret, lift, raise,
    record_call in *.

(** The search tier never raises, executes the search and at most one
    lookup after it, and leaves the clock and the random source alone. *)
Lemma lookup_by_search_calls ident (w : World S) :
  ∃ o w' rest,
    lookup_by_search execute ident w = (Ok o, w')
    ∧ calls w' = calls w ++ search_request ident :: rest
    ∧ (length rest ≤ 1)%nat
    ∧ clock_reads w' = clock_reads w ∧ random_draws w' = random_draws w.
Proof.
  unfold lookup_by_search, search_request. run.
  destruct (execute _ (transport w)) as [[response|e] s'];
    [|eexists _, _, []; cbn; eauto 10].
  destruct (has_items response); [|eexists _, _, []; cbn; eauto 10].
  destruct (first_item response) as [item|e]; cbn [result_bind];
    [|eexists _, _, []; cbn; eauto 10].
  destruct (getitem item "id") as [ids|e]; cbn [result_bind];
    [|eexists _, _, []; cbn; eauto 10].
  destruct (getitem ids "channelId") as [channel_id|e]; cbn [result_bind];
    [|eexists _, _, []; cbn; eauto 10].
  cbn [transport calls clock_reads random_draws].
  destruct (execute _ s') as [[response'|e] s''];
    [|eexists _, _, [_]; cbn; rewrite <- app_assoc; eauto 10].
  destruct (has_items response');
    [|eexists _, _, [_]; cbn; rewrite <- app_assoc; eauto 10].
  destruct (first_item response') as [item'|e]; cbn [result_bind];
    [|eexists _, _, [_]; cbn; rewrite <- app_assoc; eauto 10].
  destruct (_format_channel_data item'); cbn [result_bind];
    eexists _, _, [_]; cbn; rewrite <- app_assoc; eauto 10.
Qed.

(** X1: whatever the platform answers or raises, [get_channel_info] either
    returns a record or raises the [ValueError] that says the channel was
    not found; it never raises the quota or the API-error message of its
    [except HttpError] clause.  It executes between one and four requests,
    the first being the lookup by id, and reads neither the clock nor the
    random source. *)
Theorem get_channel_info_never_reports_quota ident (w : World S) :
  ∃ w' rest,
    calls w' = calls w ++ by_id_request (strip_at ident) :: rest
    ∧ (length rest ≤ 3)%nat
    ∧ clock_reads w' = clock_reads w
    ∧ random_draws w' = random_draws w
    ∧ ((∃ ch, get_channel_info execute ident w = (Ok ch, w'))
       ∨ get_channel_info execute ident w
         = (Raise (ValueError ("Error fetching channel info: "
                               +:+ not_found_text (strip_at ident))), w')).
Proof.
  unfold get_channel_info.
  destruct (lookup_by_id_falls_through execute (strip_at ident) w) as [o1 H1].
  set (w1 := record_call _ _ _) in H1.
  destruct (lookup_by_username_falls_through execute (strip_at ident) w1) as [o2 H2].
  set (w2 := record_call _ _ _) in H2.
  destruct (lookup_by_search_calls (strip_at ident) w2)
    as (o3 & w3 & rest & H3 & Hcalls & Hlen & Hclock & Hrandom).
  unfold try_except, mbind, Py_bind. rewrite H1.
  destruct o1 as [ch|]; [exists w1, []; cbn; eauto 10|].
  rewrite H2. destruct o2 as [ch|].
  { exists w2, [by_username_request (strip_at ident)]. cbn.
    rewrite <- app_assoc. eauto 10. }
  rewrite H3.
  assert (calls w3 = calls w ++ by_id_request (strip_at ident)
                       :: by_username_request (strip_at ident)
                       :: search_request (strip_at ident) :: rest) as Hall.
  { rewrite Hcalls. cbn. by rewrite <- !app_assoc. }
  destruct o3 as [ch|];
    exists w3, (by_username_request (strip_at ident)
                :: search_request (strip_at ident) :: rest);
    (split; [exact Hall|]); cbn [length]; (split; [lia|]);
    rewrite Hclock, Hrandom; cbn; eauto 10.
Qed.

(** X2: when the lookup by id falls through and the lookup by username
    answers with a non-empty list whose first item is a channel resource,
    [get_channel_info] returns the formatted record of that item after
    exactly these two requests: the search is not executed. *)
Theorem by_username_hit_skips_search ident (w w1 : World S) response s' item rest :
  lookup_by_id execute (strip_at ident) w = (Ok None, w1) →
  execute (by_username_request (strip_at ident)) (transport w1) = (Ok response, s') →
  response !! "items" = Some (JList (item :: rest)) →
  channel_resource item = true →
  ∃ ch w',
    _format_channel_data item = Ok ch
    ∧ get_channel_info execute ident w = (Ok ch, w')
    ∧ calls w' = calls w ++ [by_id_request (strip_at ident);
                             by_username_request (strip_at ident)]
    ∧ transport w' = s'.
Proof.
  intros H1 Hex Hitems Hres.
  destruct (format_channel_resource item Hres) as (ch & Hfmt & _).
  destruct (lookup_by_id_falls_through execute (strip_at ident) w) as [o Hw1].
  rewrite H1 in Hw1. injection Hw1 as _ Hw1.
  exists ch, (record_call w1 (by_username_request (strip_at ident)) s').
  split; [done|]. split.
  - unfold get_channel_info, try_except, mbind, Py_bind. rewrite H1.
    unfold lookup_by_username, by_username_request, has_items, first_item in *. run.
    rewrite Hex, Hitems. cbn [truthy]. rewrite (getitem_dict _ _ _ Hitems).
    cbn [result_bind getitem0]. rewrite Hfmt. reflexivity.
  - rewrite Hw1. unfold record_call. cbn. by rewrite <- app_assoc.
Qed.

(** X3: when both direct lookups fall through and the search names a
    channel, [get_channel_info] looks that channel up by the id of the
    search's first result and returns the formatted record of the lookup,
    not the entry of the search; four requests are executed. *)
Theorem search_hit_returns_detail_record ident (w w1 w2 : World S)
    found s3 stub stubs ids channel_id detail s4 item rest :
  lookup_by_id execute (strip_at ident) w = (Ok None, w1) →
  lookup_by_username execute (strip_at ident) w1 = (Ok None, w2) →
  execute (search_request (strip_at ident)) (transport w2) = (Ok found, s3) →
  found !! "items" = Some (JList (stub :: stubs)) →
  getitem stub "id" = Ok ids →
  getitem ids "channelId" = Ok channel_id →
  execute (ChannelsList_id channel_part channel_id) s3 = (Ok detail, s4) →
  detail !! "items" = Some (JList (item :: rest)) →
  channel_resource item = true →
  ∃ ch w',
    _format_channel_data item = Ok ch
    ∧ get_channel_info execute ident w = (Ok ch, w')
    ∧ calls w' = calls w ++ [by_id_request (strip_at ident);
                             by_username_request (strip_at ident);
                             search_request (strip_at ident);
                             ChannelsList_id channel_part channel_id]
    ∧ transport w' = s4.
Proof.
  intros H1 H2 Hsearch Hfound Hids Hid Hdetail Hitems Hres.
  destruct (format_channel_resource item Hres) as (ch & Hfmt & _).
  destruct (lookup_by_id_falls_through execute (strip_at ident) w) as [o Hw1].
  rewrite H1 in Hw1. injection Hw1 as _ Hw1.
  destruct (lookup_by_username_falls_through execute (strip_at ident) w1) as [o' Hw2].
  rewrite H2 in Hw2. injection Hw2 as _ Hw2.
  exists ch. eexists. split; [done|].
  unfold get_channel_info, try_except at 1, mbind at 1, Py_bind at 1. rewrite H1.
  unfold mbind at 1, Py_bind at 1. rewrite H2.
  unfold lookup_by_search, search_request, has_items, first_item in *. run.
  rewrite Hsearch, Hfound. cbn [truthy]. rewrite (getitem_dict _ _ _ Hfound).
  cbn [result_bind getitem0]. rewrite Hids. cbn [result_bind]. rewrite Hid.
  cbn [transport]. rewrite Hdetail, Hitems. cbn [truthy].
  rewrite (getitem_dict _ _ _ Hitems). cbn [result_bind getitem0]. rewrite Hfmt.
  split; [reflexivity|]. cbn [calls transport]. split; [|done].
  rewrite Hw2. cbn [calls]. rewrite Hw1. cbn [calls]. by rewrite <- !app_assoc.
Qed.
End ResolverTiers.

Lemma by_username_hit_skips_search_witness :
  ∃ ch w',
    _format_channel_data sample_channel = Ok ch
    ∧ get_channel_info quota_platform "@google" (new_world ()) = (Ok ch, w')
    ∧ calls w' = calls (new_world ()) ++ [by_id_request (strip_at "@google");
                                          by_username_request (strip_at "@google")]
    ∧ transport w' = ().
Proof.
  apply (by_username_hit_skips_search quota_platform "@google" (new_world ())
           (record_call (new_world ()) (by_id_request "google") ())
           (items_of [sample_channel]) () sample_channel []).
  - vm_compute. reflexivity.
  - reflexivity.
  - vm_compute. reflexivity.
  - vm_compute. reflexivity.
Defined.

Lemma search_hit_returns_detail_record_witness :
  ∃ ch w',
    _format_channel_data sample_channel = Ok ch
    ∧ get_channel_info search_platform "@google" (new_world ()) = (Ok ch, w')
    ∧ calls w' = calls (new_world ()) ++ [by_id_request (strip_at "@google");
                                          by_username_request (strip_at "@google");
                                          search_request (strip_at "@google");
                                          ChannelsList_id channel_part (JStr "UC123")]
    ∧ transport w' = ().
Proof.
  apply (search_hit_returns_detail_record search_platform "@google" (new_world ())
           (record_call (new_world ()) (by_id_request "google") ())
           (record_call (record_call (new_world ()) (by_id_request "google") ())
              (by_username_request "google") ())
           (items_of [JDict {[ "id" := JDict {[ "channelId" := JStr "UC123" ]} ]}]) ()
           (JDict {[ "id" := JDict {[ "channelId" := JStr "UC123" ]} ]}) []
           (JDict {[ "channelId" := JStr "UC123" ]}) (JStr "UC123")
           (items_of [sample_channel]) () sample_channel []).
  - vm_compute. reflexivity.
  - vm_compute. reflexivity.
  - reflexivity.
  - vm_compute. reflexivity.
  - vm_compute. reflexivity.
  - vm_compute. reflexivity.
  - reflexivity.
  - vm_compute. reflexivity.
  - vm_compute. reflexivity.
Defined.
(** * The formatting of videos and the fetcher *)

Lemma is_ok_inv {A} (r : result A) : is_ok r = true → ∃ a, r = Ok a.
Proof. destruct r; [eauto|done]. Qed.

(** X4: the formatting step accepts every video resource; a count that is
    absent from its statistics (likes hidden, comments disabled) is read
    as [0], a count that is present as the non-negative number its digits
    denote. *)
Theorem video_counts_read_as_zero_when_absent item :
  video_resource item = true →
  ∃ v,
    _format_video_data item = Ok v
    ∧ Video.view_count v = count_value (statistics_of item) "viewCount"
    ∧ Video.like_count v = count_value (statistics_of item) "likeCount"
    ∧ Video.comment_count v = count_value (statistics_of item) "commentCount"
    ∧ (statistics_of item !! "viewCount" = None → Video.view_count v = 0)
    ∧ (statistics_of item !! "likeCount" = None → Video.like_count v = 0)
    ∧ (statistics_of item !! "commentCount" = None → Video.comment_count v = 0)
    ∧ 0 ≤ Video.view_count v ∧ 0 ≤ Video.like_count v ∧ 0 ≤ Video.comment_count v.
Proof.
  destruct item as [| | | | |d]; try discriminate.
  unfold video_resource, statistics_of.
  destruct (d !! "id") as [id|] eqn:Hid; [|discriminate].
  destruct (d !! "snippet") as [snippet|] eqn:Hsn; [|discriminate].
  destruct (d !! "contentDetails") as [details|] eqn:Hcd;
    [|by rewrite andb_false_r].
  destruct (d !! "statistics") as [[| | | | |stats]|] eqn:Hst;
    try (by rewrite andb_false_r).
  intros H. apply andb_prop in H as [H Hcounts]. apply andb_prop in H as [H Hdur].
  apply andb_prop in H as [_ Hsnip].
  repeat (apply andb_prop in Hsnip as [Hsnip ?]).
  repeat (apply andb_prop in Hcounts as [Hcounts ?]).
  repeat match goal with
         | H : is_ok _ = true |- _ => apply is_ok_inv in H as [? H]
         end.
  unfold _format_video_data.
  rewrite !(getitem_dict _ _ _ Hid), !(getitem_dict _ _ _ Hsn), !(getitem_dict _ _ _ Hst),
    !(getitem_dict _ _ _ Hcd).
  cbn [mbind result_bind].
  repeat match goal with
         | H : getitem _ _ = Ok _ |- _ => rewrite !H; clear H
         end.
  cbn [mbind result_bind].
  rewrite !count_field_parsed by assumption. cbn [mbind result_bind].
  eexists. split; [reflexivity|]. cbn.
  repeat split; auto using count_value_absent, count_value_nonneg.
Qed.

Lemma video_counts_read_as_zero_when_absent_witness :
  ∃ v,
    _format_video_data sample_video = Ok v
    ∧ Video.view_count v = count_value (statistics_of sample_video) "viewCount"
    ∧ Video.like_count v = count_value (statistics_of sample_video) "likeCount"
    ∧ Video.comment_count v = count_value (statistics_of sample_video) "commentCount"
    ∧ (statistics_of sample_video !! "viewCount" = None → Video.view_count v = 0)
    ∧ (statistics_of sample_video !! "likeCount" = None → Video.like_count v = 0)
    ∧ (statistics_of sample_video !! "commentCount" = None → Video.comment_count v = 0)
    ∧ 0 ≤ Video.view_count v ∧ 0 ≤ Video.like_count v ∧ 0 ≤ Video.comment_count v.
Proof.
  apply (video_counts_read_as_zero_when_absent sample_video). vm_compute. reflexivity.
Defined.





Section Fetcher.
Context {S : Type}.
Variable execute : request → S → result (gmap string json) * S.

Ltac run :=
  unfold try_except, execute_request, mbind, Py_bind, mret, Py_ret, lift, raise,
    record_call in *.

Ltac finish :=
  do 2 eexists; repeat apply conj; cycle 4;
  [cbn [result_bind]; first [left; eexists; reflexivity | right; eexists; reflexivity]|..];
  cbn [calls transport clock_reads random_draws length]; rewrite <- ?app_assoc;
  first [reflexivity | cbn; lia].

(** X5: whatever the platform answers or raises, [get_channel_videos]
    either returns a list or raises a [ValueError] whose text begins with
    ["Error fetching videos: "]; it executes between one and three
    requests, the first being the lookup of the channel's content details,
    and reads neither the clock nor the random source. *)
Theorem get_channel_videos_raises_only_value_error channel_id max_results (w : World S) :
  ∃ w' rest,
    calls w' = calls w ++ ChannelsList_id "contentDetails" channel_id :: rest
    ∧ (length rest ≤ 2)%nat
    ∧ clock_reads w' = clock_reads w
    ∧ random_draws w' = random_draws w
    ∧ ((∃ videos, get_channel_videos execute channel_id max_results w = (Ok videos, w'))
       ∨ (∃ text, get_channel_videos execute channel_id max_results w
                  = (Raise (ValueError ("Error fetching videos: " +:+ text)), w'))).
Proof.
  unfold get_channel_videos, first_item. run.
  destruct (execute _ (transport w)) as [[response1|e] s1]; [|finish].
  destruct (getitem (JDict response1) "items") as [items|e]; [|finish].
  destruct (truthy items); cbn [negb result_bind]; [|finish].
  destruct (getitem0 items) as [item|e]; cbn [result_bind]; [|finish].
  destruct (uploads_of item) as [uploads|e]; [|finish].
  cbn [transport calls clock_reads random_draws].
  destruct (execute _ s1) as [[response2|e] s2]; [|finish].
  destruct (getitem (JDict response2) "items") as [items2|e]; cbn [result_bind]; [|finish].
  destruct (iterate items2) as [entries|e]; cbn [result_bind]; [|finish].
  destruct (list_comprehension video_id_of entries) as [[|id ids]|e]; [finish| |finish].
  destruct (join (id :: ids)) as [joined|e]; [|finish].
  cbn [transport calls clock_reads random_draws].
  destruct (execute _ s2) as [[response3|e] s3]; [|finish].
  destruct (getitem (JDict response3) "items") as [items3|e]; cbn [result_bind]; [|finish].
  destruct (iterate items3) as [entries3|e]; cbn [result_bind]; [|finish].
  destruct (list_comprehension _format_video_data entries3) as [videos|e]; finish.
Qed.

(** X6: when the lookup of the channel's content details answers with an
    empty list, [get_channel_videos] raises [ValueError] with the text
    ["Error fetching videos: Channel not found"] after that one request. *)
Theorem unknown_channel_has_no_videos channel_id max_results (w : World S) response s' :
  execute (ChannelsList_id "contentDetails" channel_id) (transport w) = (Ok response, s') →
  response !! "items" = Some (JList []) →
  get_channel_videos execute channel_id max_results w
  = (Raise (ValueError "Error fetching videos: Channel not found"),
     record_call w (ChannelsList_id "contentDetails" channel_id) s').
Proof.
  intros Hex Hitems. unfold get_channel_videos. run.
  rewrite Hex, (getitem_dict _ _ _ Hitems). reflexivity.
Qed.

End Fetcher.

Lemma unknown_channel_has_no_videos_witness :
  get_channel_videos empty_platform (JStr "UC123") 50 (new_world ())
  = (Raise (ValueError "Error fetching videos: Channel not found"),
     record_call (new_world ()) (ChannelsList_id "contentDetails" (JStr "UC123")) ()).
Proof.
  apply (unknown_channel_has_no_videos empty_platform (JStr "UC123") 50 (new_world ())
           (items_of []) ()).
  - reflexivity.
  - vm_compute. reflexivity.
Defined.

(** * Further properties of the synthesizer and of the aggregator *)

Section SynthesizerEffects.
Context {S : Type}.
Variable clock : nat → datetime.
Variable random : nat → float.

Lemma history_step_keeps_platform cs cv cn h i (w : World S) r w' :
  history_step clock random cs cv cn h i w = (r, w') →
  transport w' = transport w ∧ calls w' = calls w.
Proof.
  unfold history_step, datetime_now, random_random, lift, mbind, Py_bind, mret, Py_ret.
  cbn [clock_reads random_draws transport calls].
  destruct (days_before _ _) as [d|e]; [|by intros [= <- <-]].
  destruct (growth_factor_at i) as [gf|e]; [|by intros [= <- <-]].
  destruct (scaled cs gf _) as [vs|e]; [|by intros [= <- <-]].
  destruct (scaled cv gf _) as [vv|e]; [|by intros [= <- <-]].
  destruct (scaled cn gf _) as [vn|e]; by intros [= <- <-].
Qed.

Lemma for_each_keeps_platform cs cv cn l h (w : World S) r w' :
  for_each (history_step clock random cs cv cn) l h w = (r, w') →
  transport w' = transport w ∧ calls w' = calls w.
Proof.
  revert h w. induction l as [|i l IH]; intros h w; cbn [for_each].
  - by intros [= <- <-].
  - unfold mbind, Py_bind.
    destruct (history_step clock random cs cv cn h i w) as [[h1|e] w1] eqn:E1;
      apply history_step_keeps_platform in E1 as [Ht Hc].
    + intros [Ht' Hc']%IH. split; congruence.
    + intros [= <- <-]. done.
Qed.

(** X8: [generate_historical_data] never talks to the platform: whether it
    returns or raises, the state of the platform and the list of executed
    requests are as before.  For a [HISTORICAL_MONTHS] that is not
    positive it returns three empty lists without reading the clock or
    drawing a number. *)
Theorem synthesizer_makes_no_request M ch (w : World S) :
  (∀ r w', generate_historical_data clock random M ch w = (r, w') →
           transport w' = transport w ∧ calls w' = calls w)
  ∧ (M ≤ 0 → generate_historical_data clock random M ch w = (Ok no_history, w)).
Proof.
  split.
  - intros r w'. unfold generate_historical_data. apply for_each_keeps_platform.
  - intros HM. unfold generate_historical_data, range_down.
    replace (Z.to_nat M) with 0%nat by lia. reflexivity.
Qed.

Lemma scaled_zero gf rv s s' k k' :
  below s k gf → below s' k' rv → scaled 0 gf rv = Ok 0.
Proof.
  intros Hgf Hrv. unfold scaled, int_mul_float.
  change (float_of_int 0) with (Ok (S754_zero false)). cbn [mbind result_bind].
  destruct gf as [?| | |? ? ?]; try done; destruct rv as [?| | |? ? ?]; try done.
Qed.

Lemma point_zero i now r p :
  0 ≤ i < 2 ^ 17 → unit_draw r = true → point 0 i now r = Ok p → value p = 0.
Proof.
  intros Hi Hr. unfold point.
  destruct (days_before now (30 * i)); cbn [mbind result_bind]; [|discriminate].
  destruct (growth_factor_below i Hi) as (gf & s & -> & Hgf). cbn [mbind result_bind].
  rewrite (scaled_zero _ _ _ _ _ _ Hgf (random_variation_below r Hr)).
  cbn [mbind result_bind]. by intros [= <-].
Qed.

(** X9: a total of zero (a hidden subscriber count, a channel without
    views or videos) gives a history of zeros for that metric, whatever is
    drawn: for totals of fewer than a thousand bits and a clock within
    reach of the calendar the synthesizer returns, and every value of a
    list whose total is [0] is [0]. *)
Theorem zero_total_gives_zero_history M ch (w : World S) :
  Z.abs (Channel.subscriber_count ch) < 2 ^ 1000 →
  Z.abs (Channel.view_count ch) < 2 ^ 1000 →
  Z.abs (Channel.video_count ch) < 2 ^ 1000 →
  (∀ n, unit_draw (random n) = true) →
  (∀ n, 30 * M < ordinal (clock n) ≤ max_ordinal) →
  ∃ h w',
    generate_historical_data clock random M ch w = (Ok h, w')
    ∧ (Channel.subscriber_count ch = 0 → ∀ p, p ∈ subscriber_history h → value p = 0)
    ∧ (Channel.view_count ch = 0 → ∀ p, p ∈ view_history h → value p = 0)
    ∧ (Channel.video_count ch = 0 → ∀ p, p ∈ video_history h → value p = 0).
Proof.
  intros Hs Hv Hn Hr Hc.
  destruct (generate_historical_data_returns clock random M ch w Hs Hv Hn Hr Hc)
    as (h & w' & Hrun).
  exists h, w'. split; [done|].
  pose proof (generate_historical_data_inv _ _ _ _ _ _ _ Hrun) as (_ & Ls & Lv & Ln & Hk).
  assert (∀ k : nat, (k < Z.to_nat M)%nat → 0 ≤ M - Z.of_nat k < 2 ^ 17) as Hi.
  { intros k Hk'. specialize (Hc 0%nat). unfold max_ordinal in Hc. lia. }
  repeat apply conj; intros Hzero p [k Hp]%list_elem_of_lookup;
    pose proof (lookup_lt_Some _ _ _ Hp) as Hlt; rewrite ?Ls, ?Lv, ?Ln in Hlt;
    destruct (Hk k Hlt) as (a & b & c & Ha & Hb & Hc' & Pa & Pb & Pc);
    rewrite ?Hzero in *.
  - rewrite Ha in Hp. injection Hp as <-. eapply point_zero; [by apply Hi|apply Hr|exact Pa].
  - rewrite Hb in Hp. injection Hp as <-. eapply point_zero; [by apply Hi|apply Hr|exact Pb].
  - rewrite Hc' in Hp. injection Hp as <-. eapply point_zero; [by apply Hi|apply Hr|exact Pc].
Qed.
End SynthesizerEffects.

Lemma synthesizer_makes_no_request_witness :
  0 ≤ 0
  ∧ generate_historical_data still_clock pinned_random 0 (totals 0 10000 10)
      (new_world ()) = (Ok no_history, new_world ()).
Proof.
  split; [lia|].
  apply (proj2 (synthesizer_makes_no_request still_clock pinned_random 0
                  (totals 0 10000 10) (new_world ()))).
  lia.
Defined.

Lemma zero_total_gives_zero_history_witness :
  ∃ h w',
    generate_historical_data still_clock pinned_random 12 (totals 0 10000 10)
      (new_world ()) = (Ok h, w')
    ∧ (Channel.subscriber_count (totals 0 10000 10) = 0 →
       ∀ p, p ∈ subscriber_history h → value p = 0)
    ∧ (Channel.view_count (totals 0 10000 10) = 0 →
       ∀ p, p ∈ view_history h → value p = 0)
    ∧ (Channel.video_count (totals 0 10000 10) = 0 →
       ∀ p, p ∈ video_history h → value p = 0).
Proof.
  apply (zero_total_gives_zero_history still_clock pinned_random 12 (totals 0 10000 10)
           (new_world ())).
  - simpl. lia.
  - simpl. lia.
  - simpl. lia.
  - intros n. reflexivity.
  - intros n. unfold max_ordinal. simpl. lia.
Defined.

Section AggregatorEffects.
Context {S : Type}.
Variable execute : request → S → result (gmap string json) * S.
Variable clock : nat → datetime.
Variable random : nat → float.

(** X10: whatever the platform, the clock and the random source do,
    [get_comprehensive_stats] either returns a bundle or raises a
    [ValueError] whose text begins with
    ["Error getting comprehensive stats: "]; no other kind of exception
    reaches its caller. *)
Theorem stats_raises_only_value_error M ident (w : World S) :
  ∃ w',
    (∃ bundle, get_comprehensive_stats execute clock random M ident w = (Ok bundle, w'))
    ∨ (∃ text, get_comprehensive_stats execute clock random M ident w
               = (Raise (ValueError ("Error getting comprehensive stats: " +:+ text)), w')).
Proof.
  pose proof (get_comprehensive_stats_cases execute clock random M ident w) as H.
  destruct (get_channel_info execute ident w) as [[ch|e] w1];
    [|exists w1; right; by exists (str_exn e)].
  destruct (get_channel_videos execute (Channel.id ch) 50 w1) as [[vs|e] w2];
    [|exists w2; right; by exists (str_exn e)].
  destruct (generate_historical_data clock random M ch w2) as [[h|e] w3];
    exists w3; [left; eauto | right; by exists (str_exn e)].
Qed.

Lemma get_channel_info_keeps_clock ident (w : World S) r w' :
  get_channel_info execute ident w = (r, w') →
  clock_reads w' = clock_reads w ∧ random_draws w' = random_draws w.
Proof.
  unfold get_channel_info.
  destruct (lookup_by_id_falls_through execute (strip_at ident) w) as [o1 H1].
  set (w1 := record_call _ _ _) in H1.
  destruct (lookup_by_username_falls_through execute (strip_at ident) w1) as [o2 H2].
  set (w2 := record_call _ _ _) in H2.
  destruct (lookup_by_search_calls execute (strip_at ident) w2)
    as (o3 & w3 & rest & H3 & _ & _ & Hclock & Hrandom).
  unfold try_except, mbind, Py_bind. rewrite H1.
  destruct o1 as [ch|]; [by intros [= <- <-]|].
  rewrite H2. destruct o2 as [ch|]; [by intros [= <- <-]|].
  rewrite H3. destruct o3 as [ch|]; intros [= <- <-]; by rewrite Hclock, Hrandom.
Qed.

(** X11: when the resolution fails, [get_comprehensive_stats] stops there:
    it raises [ValueError] with the text ["Error getting comprehensive
    stats: Error fetching channel info: Channel '<id>' not found. Please
    check the channel ID or username."], [<id>] being the identifier
    without its leading ['@'], in the world the resolution left: no video
    is requested, the clock is not read and nothing is drawn. *)
Theorem stats_stop_at_failed_resolution M ident (w : World S) e w1 :
  get_channel_info execute ident w = (Raise e, w1) →
  get_comprehensive_stats execute clock random M ident w
  = (Raise (ValueError
       ("Error getting comprehensive stats: Error fetching channel info: Channel '"
        +:+ strip_at ident
        +:+ "' not found. Please check the channel ID or username.")), w1)
  ∧ clock_reads w1 = clock_reads w
  ∧ random_draws w1 = random_draws w.
Proof.
  intros Hfail.
  pose proof (get_channel_info_keeps_clock _ _ _ _ Hfail) as [Hclock Hrandom].
  pose proof (get_comprehensive_stats_cases execute clock random M ident w) as H.
  rewrite Hfail in H.
  destruct (get_channel_info_outcomes execute ident w) as (w' & [[ch Hok]|Hnf]);
    [congruence|].
  rewrite Hfail in Hnf. injection Hnf as -> _.
  split; [|done]. rewrite H. reflexivity.
Qed.
End AggregatorEffects.

Lemma stats_stop_at_failed_resolution_witness :
  get_comprehensive_stats empty_platform still_clock pinned_random 12 "@google" (new_world ())
  = (Raise (ValueError
       ("Error getting comprehensive stats: Error fetching channel info: Channel '"
        +:+ strip_at "@google"
        +:+ "' not found. Please check the channel ID or username.")),
     record_call
       (record_call
          (record_call (new_world ()) (by_id_request "google") ())
          (by_username_request "google") ())
       (search_request "google") ())
  ∧ clock_reads
      (record_call
         (record_call
            (record_call (new_world ()) (by_id_request "google") ())
            (by_username_request "google") ())
         (search_request "google") ()) = clock_reads (new_world ())
  ∧ random_draws
      (record_call
         (record_call
            (record_call (new_world ()) (by_id_request "google") ())
            (by_username_request "google") ())
         (search_request "google") ()) = random_draws (new_world ()).
Proof.
  apply (stats_stop_at_failed_resolution empty_platform still_clock pinned_random 12
           "@google" (new_world ())
           (ValueError "Error fetching channel info: Channel 'google' not found. Please check the channel ID or username.")).
  vm_compute. reflexivity.
Defined.

(** * The expressions of the command-line front end *)

Lemma replace_char_length old new s :
  String.length (replace_char old new s) = String.length s.
Proof. induction s as [|c s IH]; cbn; [done|by rewrite IH]. Qed.

Lemma replace_char_get old new s n :
  String.get n (replace_char old new s)
  = (λ c, if Ascii.eqb c old then new else c) <$> String.get n s.
Proof.
  revert n; induction s as [|c s IH]; intros [|n]; cbn; auto.
Qed.

Lemma substring_length_le n s : (String.length (String.substring 0 n s) ≤ n)%nat.
Proof.
  revert s; induction n as [|n IH]; intros [|c s]; cbn; try lia.
  specialize (IH s); lia.
Qed.





(** X12. The average of [print_channel_info] never divides by zero: for
    every channel record the quotient exists and is the floor of the views
    over the number of videos, the latter raised to one when smaller. *)
Theorem average_views_never_divides_by_zero (channel_data : Channel.t) :
  ∃ q, avg_views channel_data = Some q
       ∧ q * Z.max (Channel.video_count channel_data) 1 ≤ Channel.view_count channel_data
       ∧ Channel.view_count channel_data < (q + 1) * Z.max (Channel.video_count channel_data) 1.
Proof.
  unfold avg_views, floordiv.
  set (v := Channel.view_count channel_data).
  set (n := Z.max (Channel.video_count channel_data) 1).
  assert (Hn : 1 ≤ n) by (unfold n; lia).
  destruct (n =? 0) eqn:E; [apply Z.eqb_eq in E; lia|].
  eexists; split; [reflexivity|].
  pose proof (Z.mul_div_le v n ltac:(lia)).
  pose proof (Z.mul_succ_div_gt v n ltac:(lia)).
  nia.
Qed.

(** X13. For a channel resource of the platform, formatting succeeds and the
    average printed for the record lies between zero and the view count; a
    channel without videos shows its whole view count. *)
Theorem average_views_of_channel_resource (item : json) :
  channel_resource item = true →
  ∃ ch q, _format_channel_data item = Ok ch
          ∧ avg_views ch = Some q
          ∧ 0 ≤ q ≤ Channel.view_count ch
          ∧ (count_value (statistics_of item) "videoCount" = 0 → q = Channel.view_count ch).
Proof.
  intros Hitem.
  destruct (format_channel_resource item Hitem) as (ch & Hfmt & _ & Hviews & Hvideos).
  pose proof (count_value_nonneg (statistics_of item) "viewCount") as Hv.
  pose proof (count_value_nonneg (statistics_of item) "videoCount") as Hn.
  rewrite <- Hviews in Hv. rewrite <- Hvideos in Hn.
  exists ch, (Channel.view_count ch / Z.max (Channel.video_count ch) 1).
  split; [done|].
  split.
  { unfold avg_views, floordiv.
    destruct (Z.max (Channel.video_count ch) 1 =? 0) eqn:E; [apply Z.eqb_eq in E; lia|done]. }
  split.
  - split; [apply Z.div_pos; lia|].
    apply Z.div_le_upper_bound; [lia|]. nia.
  - intros H0. rewrite Hvideos, H0. change (Z.max 0 1) with 1. apply Z.div_1_r.
Qed.

Lemma average_views_of_channel_resource_witness :
  channel_resource sample_channel = true
  ∧ ∃ ch q, _format_channel_data sample_channel = Ok ch
            ∧ avg_views ch = Some q
            ∧ 0 ≤ q ≤ Channel.view_count ch
            ∧ (count_value (statistics_of sample_channel) "videoCount" = 0
               → q = Channel.view_count ch).
Proof.
  split; [vm_compute; reflexivity|].
  apply (average_views_of_channel_resource sample_channel); vm_compute; reflexivity.
Defined.

(** X14. The file-name stem that [save_charts] derives from a title has the
    title's length and holds neither a space nor a slash; every other
    character of the title stays where it was. *)
Theorem chart_file_stem_has_no_space_or_slash (title : string) :
  String.length (channel_name title) = String.length title
  ∧ ∀ n, String.get n (channel_name title) ≠ Some " "%char
         ∧ String.get n (channel_name title) ≠ Some "/"%char
         ∧ String.get n (channel_name title)
           = (λ c, if Ascii.eqb c " " || Ascii.eqb c "/" then "_"%char else c)
               <$> String.get n title.
Proof.
  unfold channel_name. split; [by rewrite !replace_char_length|].
  intros n. rewrite !replace_char_get.
  destruct (String.get n title) as [c|]; cbn; [|done].
  destruct (Ascii.eqb c " ") eqn:E1; cbn; [done|].
  destruct (Ascii.eqb c "/") eqn:E2; cbn; [done|].
  apply Ascii.eqb_neq in E1, E2.
  repeat split; congruence.
Qed.



(** X16. For a limit that is not negative, [print_recent_videos] lists as
    many videos as its heading announces, and they are the first ones of
    the list; for a negative limit the heading announces that negative
    number while the listing drops videos from the end. *)
Theorem recent_videos_heading_counts_listing {A} (limit : Z) (videos : list A) :
  (0 ≤ limit →
   Z.of_nat (length (listed limit videos)) = announced limit videos
   ∧ listed limit videos = take (Z.to_nat limit) videos)
  ∧ (limit < 0 →
     announced limit videos = limit
     ∧ Z.of_nat (length (listed limit videos))
       = Z.max 0 (Z.of_nat (length videos) + limit)).
Proof.
  unfold listed, announced, slice_to. split; intros H.
  - destruct (0 <=? limit) eqn:E; [|apply Z.leb_gt in E; lia].
    split; [|done]. rewrite length_take. lia.
  - destruct (0 <=? limit) eqn:E; [apply Z.leb_le in E; lia|].
    split; [lia|]. rewrite length_take. lia.
Qed.

Lemma recent_videos_heading_counts_listing_witness :
  0 ≤ 5
  ∧ Z.of_nat (length (listed 5 ["a"; "b"; "c"])) = announced 5 ["a"; "b"; "c"]
  ∧ listed 5 ["a"; "b"; "c"] = take (Z.to_nat 5) ["a"; "b"; "c"].
Proof.
  split; [lia|].
  apply (proj1 (recent_videos_heading_counts_listing 5 ["a"; "b"; "c"])). lia.
Defined.
